(** * tweet-to-blog: the publish and bulk-delete route handlers

    A shallow embedding of
      - [src/app/api/tweets/[id]/publish/route.ts]  ([uploadImageToWordPress], [POST])
      - the bulk-delete route                        ([DELETE])
    as state-passing programs over an explicit world: the tweet store, and a
    chronological trace of every outbound call the handler makes.  Network
    answers, the clock and the incoming request body are supplied by an
    environment that may answer differently at every point of the trace. *)

From Stdlib Require Import ZArith List String Ascii Bool Lia DecimalString.
Import ListNotations.
Local Open Scope string_scope.
Local Open Scope Z_scope.
Set Warnings "-register-all".

(* ------------------------------------------------------------------ *)
(** ** JavaScript values *)
(* ------------------------------------------------------------------ *)

Module Js.

(** The values a decoded JSON document, a request field or a property read
    can hold.  Numbers are integers here; the handlers only test them for
    truthiness, compare them with [===] and print them.  [JFun] stands for a
    built-in method found on a prototype. *)
Inductive JsVal : Type :=
| JUndefined
| JNull
| JBool (b : bool)
| JNum (n : Z)
| JStr (s : string)
| JArr (items : list JsVal)
| JObj (fields : list (string * JsVal))
| JFun (name : string).

(** A thrown [Error] object; handlers only ever read its [message]. *)
Inductive Exn : Type := Error (message : string).

Definition message (e : Exn) : string := let 'Error m := e in m.

(** Outcome of an operation that may throw. *)
Inductive result (A : Type) : Type :=
| Ok (a : A)
| Throw (e : Exn).
Arguments Ok {A} a.
Arguments Throw {A} e.

Definition nl : string := String "010"%char EmptyString.
Definition dq : string := String "034"%char EmptyString.

Definition is_empty (s : string) : bool :=
  match s with EmptyString => true | _ => false end.

(** ToBoolean. *)
Definition truthy (v : JsVal) : bool :=
  match v with
  | JUndefined | JNull => false
  | JBool b => b
  | JNum n => negb (n =? 0)
  | JStr s => negb (is_empty s)
  | JArr _ | JObj _ | JFun _ => true
  end.

(** [a || b]. *)
Definition js_or (a b : JsVal) : JsVal := if truthy a then a else b.

Definition string_of_Z (n : Z) : string := NilZero.string_of_int (Z.to_int n).

Fixpoint join (sep : string) (l : list string) : string :=
  match l with
  | [] => EmptyString
  | [x] => x
  | x :: r => x ++ sep ++ join sep r
  end.

(** ToString, for the values that have one (see [stringifies]). *)
Fixpoint ToString (v : JsVal) : string :=
  match v with
  | JUndefined => "undefined"
  | JNull => "null"
  | JBool true => "true"
  | JBool false => "false"
  | JNum n => string_of_Z n
  | JStr s => s
  | JArr items =>
      join "," (map (fun x => match x with
                              | JUndefined | JNull => EmptyString
                              | _ => ToString x
                              end) items)
  | JObj _ => "[object Object]"
  | JFun name => "function " ++ name ++ "() { [native code] }"
  end.

(** Whether ToString succeeds.  An object is rendered by the [toString] it
    finds; one that carries a [toString] of its own, which in a decoded
    document is never callable, cannot be rendered, and neither can an array
    that holds such an object. *)
Fixpoint stringifies (v : JsVal) : bool :=
  match v with
  | JArr items =>
      forallb (fun x => match x with
                        | JUndefined | JNull => true
                        | _ => stringifies x
                        end) items
  | JObj fields => negb (existsb (fun kv => String.eqb (fst kv) "toString") fields)
  | _ => true
  end.

(** The text a template literal puts in place of [${v}]; a TypeError where
    ToString fails. *)
Definition interpolate (v : JsVal) : result string :=
  if stringifies v then Ok (ToString v)
  else Throw (Error "Cannot convert object to primitive value").

Fixpoint lookup (k : string) (fields : list (string * JsVal)) : JsVal :=
  match fields with
  | [] => JUndefined
  | (k', v) :: r => if String.eqb k k' then v else lookup k r
  end.

(** Property read [v.k], for the keys the handlers read ([title], [article],
    [content], [mediaUrl], [url], [source_url], [guid], [rendered], [link],
    [id], [language], [published], [status]).  Reading from [null] or
    [undefined] throws a TypeError; of these keys only [link] lives on a
    prototype (String.prototype.link). *)
Definition get_prop (v : JsVal) (k : string) : result JsVal :=
  match v with
  | JUndefined =>
      Throw (Error ("Cannot read properties of undefined (reading '" ++ k ++ "')"))
  | JNull =>
      Throw (Error ("Cannot read properties of null (reading '" ++ k ++ "')"))
  | JObj fields => Ok (lookup k fields)
  | JStr _ => Ok (if String.eqb k "link" then JFun "link" else JUndefined)
  | _ => Ok JUndefined
  end.

(** [v?.k] *)
Definition get_prop_opt (v : JsVal) (k : string) : JsVal :=
  match get_prop v k with Ok x => x | Throw _ => JUndefined end.

(** *** parseInt(string), radix omitted *)

(** Strings are sequences of bytes, UTF-8 for what lies beyond ASCII.  The
    white space [parseInt] skips: TAB, LF, VT, FF, CR, SP, and the encodings
    of U+00A0, U+1680, U+2000..U+200A, U+2028, U+2029, U+202F, U+205F,
    U+3000 and U+FEFF. *)
Definition code (c : ascii) : Z := Z.of_nat (nat_of_ascii c).

Definition is_whitespace (c : ascii) : bool :=
  ((9 <=? code c) && (code c <=? 13)) || (code c =? 32).

Definition is_whitespace2 (c1 c2 : ascii) : bool :=
  (code c1 =? 194) && (code c2 =? 160).

Definition is_whitespace3 (c1 c2 c3 : ascii) : bool :=
  ((code c1 =? 225) && (code c2 =? 154) && (code c3 =? 128))
  || ((code c1 =? 226) && (code c2 =? 128)
      && (((128 <=? code c3) && (code c3 <=? 138))
          || (code c3 =? 168) || (code c3 =? 169) || (code c3 =? 175)))
  || ((code c1 =? 226) && (code c2 =? 129) && (code c3 =? 159))
  || ((code c1 =? 227) && (code c2 =? 128) && (code c3 =? 128))
  || ((code c1 =? 239) && (code c2 =? 187) && (code c3 =? 191)).

Fixpoint skip_whitespace (s : string) : string :=
  match s with
  | EmptyString => s
  | String c1 r1 =>
      if is_whitespace c1 then skip_whitespace r1
      else
        match r1 with
        | EmptyString => s
        | String c2 r2 =>
            if is_whitespace2 c1 c2 then skip_whitespace r2
            else
              match r2 with
              | EmptyString => s
              | String c3 r3 =>
                  if is_whitespace3 c1 c2 c3 then skip_whitespace r3 else s
              end
        end
  end.

Definition digit_value (c : ascii) : option Z :=
  let n := code c in
  if (48 <=? n) && (n <=? 57) then Some (n - 48)
  else if (97 <=? n) && (n <=? 122) then Some (n - 87)
  else if (65 <=? n) && (n <=? 90) then Some (n - 55)
  else None.

(** Longest prefix of digits below [radix]; [None] when there is none. *)
Fixpoint parse_digits (radix : Z) (s : string) (acc : option Z) : option Z :=
  match s with
  | String c r =>
      match digit_value c with
      | Some d =>
          if d <? radix
          then parse_digits radix r
                 (Some (match acc with Some a => a * radix + d | None => d end))
          else acc
      | None => acc
      end
  | EmptyString => acc
  end.

(** Among the integers that stand for Numbers, 2^1024 stands for
    [Infinity] and its opposite for [-Infinity]: every finite Number lies
    strictly between them.  The handlers compare an infinity, they never
    print one. *)
Definition Infinity : Z := 2 ^ 1024.

(** The Number nearest to a non-negative integer.  Every integer up to 2^53
    is a Number; beyond, a Number keeps the 53 leading bits, and the integer
    is rounded to the nearest such value, a tie going to the even one; what
    rounds to 2^1024 or more is [Infinity]. *)
Definition nearest_Number (m : Z) : Z :=
  let e := Z.log2 m - 52 in
  if e <=? 0 then m
  else
    let q := Z.shiftr m e in
    let r := m - Z.shiftl q e in
    let half := Z.shiftl 1 (e - 1) in
    let v := Z.shiftl (if (half <? r) || ((half =? r) && Z.odd q) then q + 1 else q) e in
    if Infinity <=? v then Infinity else v.

(** [None] is NaN.  The digits are read as an integer, which is then turned
    into the nearest Number. *)
Definition parseInt (s : string) : option Z :=
  let s1 := skip_whitespace s in
  let '(sign, s2) :=
    match s1 with
    | String "-"%char r => (-1, r)
    | String "+"%char r => (1, r)
    | _ => (1, s1)
    end in
  let '(radix, s3) :=
    match s2 with
    | String "0"%char (String "x"%char r) => (16, r)
    | String "0"%char (String "X"%char r) => (16, r)
    | _ => (10, s2)
    end in
  option_map (fun mathInt => sign * nearest_Number mathInt)
    (parse_digits radix s3 None).

(** *** String methods used by the handlers *)

(** [s.split(sep).pop()] : the part after the last [sep]. *)
Fixpoint last_segment (sep : ascii) (s : string) (cur : string) : string :=
  match s with
  | EmptyString => cur
  | String c r =>
      if Ascii.eqb c sep then last_segment sep r EmptyString
      else last_segment sep r (cur ++ String c EmptyString)
  end.

(** [s.split(sep)[0]] : the part before the first [sep]. *)
Fixpoint first_segment (sep : ascii) (s : string) : string :=
  match s with
  | EmptyString => EmptyString
  | String c r => if Ascii.eqb c sep then EmptyString else String c (first_segment sep r)
  end.

(** [s.includes(sub)] *)
Fixpoint includes (sub s : string) : bool :=
  prefix sub s || match s with
                  | EmptyString => false
                  | String _ r => includes sub r
                  end.

(** [s.replace(/\/$/, '')] : drop one trailing slash. *)
Fixpoint strip_trailing_slash (s : string) : string :=
  match s with
  | EmptyString => EmptyString
  | String c r =>
      if Ascii.eqb c "/"%char && is_empty r then EmptyString
      else String c (strip_trailing_slash r)
  end.

End Js.
Export Js.

(* ------------------------------------------------------------------ *)
(** ** Data model, collaborators and the world *)
(* ------------------------------------------------------------------ *)

(** The two supported languages, [language: 'english' | 'french']. *)
Inductive Language : Type := english | french.

Definition language_name (l : Language) : string :=
  match l with english => "english" | french => "french" end.

(** A stored tweet row as the handlers read it.  The article and media
    fields are whatever the store hands back ([null], JSON text, or an
    already-structured value). *)
Record Tweet : Type := {
  id : Z;
  username : string;
  tweet_id : string;
  article_english : JsVal;
  article_french : JsVal;
  media_urls : JsVal;
  published_english : bool;
  link_english : JsVal;
  published_french : bool;
  link_french : JsVal
}.

(** Result of a successful media upload, [{ mediaId, url }]. *)
Record UploadedImage : Type := { mediaId : JsVal; url : JsVal }.

(** The answer of a handler: its status and the value sent as its JSON
    body. *)
Record HttpResponse : Type := { res_status : Z; res_body : JsVal }.

(** A null body status of the Fetch standard: a response with one of these
    statuses has no body. *)
Definition null_body_status (status : Z) : bool :=
  (status =? 101) || (status =? 103) || (status =? 204) || (status =? 205)
  || (status =? 304).

(** Why the platform's [Response] refuses to be built with a body and the
    given status: a RangeError outside 200..599, a TypeError on a null body
    status; [None] when it accepts. *)
Definition response_status_error (status : Z) : option Exn :=
  if negb ((200 <=? status) && (status <=? 599)) then
    Some (Error ("init[" ++ dq ++ "status" ++ dq
                 ++ "] must be in the range of 200 to 599, inclusive."))
  else if null_body_status status then
    Some (Error ("Response constructor: Invalid response status code "
                 ++ string_of_Z status))
  else None.

(** [NextResponse.json(body, { status })]; the status defaults to 200.  It
    builds the platform's [Response] with the serialised body, and throws
    where that constructor does. *)
Definition NextResponse_json (body : JsVal) (status : Z) : result HttpResponse :=
  match response_status_error status with
  | Some e => Throw e
  | None => Ok {| res_status := status; res_body := body |}
  end.

(** [{ error: msg }] sent with [status]. *)
Definition json_error (msg : string) (status : Z) : HttpResponse :=
  {| res_status := status; res_body := JObj [("error", JStr msg)] |}.

(** Outbound [fetch] requests and their answers. *)
Inductive Body : Type :=
| NoBody
| TextBody (text : string)
| FormData (field filename contentType : string) (bytes : list Byte.byte).

Record Request : Type := {
  req_input : JsVal;
  req_method : string;
  req_headers : list (string * string);
  req_body : Body;
  req_timeout : Z
}.

(** A received response: its status line, its Content-Type header and what
    each way of reading its body yields when it is the first read (reading
    may itself throw). *)
Record Response : Type := {
  status : Z;
  content_type : option string;
  body_json : result JsVal;
  body_text : result string;
  body_arrayBuffer : result (list Byte.byte)
}.

(** [response.ok] *)
Definition ok (r : Response) : bool := (200 <=? status r) && (status r <=? 299).

(** [response.text()] once the body has been read, also by a read that
    failed.  A body is consumed by its first read, so the second one throws
    a TypeError; only a response without a body, which a POST gets on a null
    body status alone, reads again, as the empty text. *)
Definition text_after_read (r : Response) : result string :=
  if null_body_status (status r) then Ok EmptyString
  else Throw (Error "Body is unusable: Body has already been read").

(** The call site of a [fetch]. *)
Inductive Site : Type := ImageDownload | MediaUpload | PostCreate.

Inductive ConsoleLevel : Type := ConsoleLog | ConsoleError.

(** Everything a handler does to the outside, in the order it happens. *)
Inductive Event : Type :=
| EvFetch (site : Site) (req : Request) (out : result Response)
| EvGetCount
| EvDeleteAll
| EvGetAll (limit offset : Z)
| EvUpdatePublished (tweet : Z) (language : Language) (published : bool) (link : JsVal)
| EvSettingsGet (key : string)
| EvConsole (level : ConsoleLevel) (msg : string).

(** The environment: how the network answers a request and what the clock
    shows, given everything that happened so far. *)
Record Env : Type := {
  fetch_oracle : list Event -> Request -> result Response;
  clock : list Event -> Z
}.

(** The incoming request; [request.json()] either throws or yields the
    decoded body. *)
Record NextRequest : Type := { request_json : result JsVal }.

(** Built-ins and libraries the handlers call. *)
Class Runtime : Type := {
  JSON_parse : string -> result JsVal;
  JSON_stringify : JsVal -> string;
  marked : JsVal -> result string;
  base64 : string -> string;
  URL_pathname : JsVal -> result string
}.

(** The interface of [@/lib/db] the handlers consume: [tweets.getCount],
    [tweets.deleteAll], [tweets.getAll], [tweets.updatePublished] and
    [settings.get].  Reads leave the store as it is. *)
Class Db (S : Type) : Type := {
  db_getCount : S -> result Z;
  db_deleteAll : S -> result Z * S;
  db_getAll : Z -> Z -> S -> result (list Tweet);
  db_updatePublished : Z -> Language -> bool -> JsVal -> S -> result bool * S;
  db_settings_get : string -> S -> result (option string)
}.

Record World (S : Type) : Type := { store : S; trace : list Event }.
Arguments store {S} w.
Arguments trace {S} w.

Definition init {S : Type} (s : S) : World S := {| store := s; trace := [] |}.

(* ------------------------------------------------------------------ *)
(** ** The handler monad: state, exceptions, trace *)
(* ------------------------------------------------------------------ *)

Definition Handler (S A : Type) : Type := World S -> result A * World S.

Definition ret {S A} (a : A) : Handler S A := fun w => (Ok a, w).

Definition bind {S A B} (m : Handler S A) (k : A -> Handler S B) : Handler S B :=
  fun w => match m w with
           | (Ok a, w') => k a w'
           | (Throw e, w') => (Throw e, w')
           end.

Definition throw {S A} (e : Exn) : Handler S A := fun w => (Throw e, w).

(** [try { m } catch (error) { h error }] *)
Definition try_catch {S A} (m : Handler S A) (h : Exn -> Handler S A) : Handler S A :=
  fun w => match m w with
           | (Ok a, w') => (Ok a, w')
           | (Throw e, w') => h e w'
           end.

Definition lift {S A} (r : result A) : Handler S A := fun w => (r, w).

Definition emit {S} (ev : Event) : Handler S unit :=
  fun w => (Ok tt, {| store := store w; trace := trace w ++ [ev] |}).

Declare Scope handler_scope.
Delimit Scope handler_scope with handler.
Notation "x <- m ;; k" := (bind m (fun x => k))
  (at level 61, m at next level, right associativity) : handler_scope.
Notation "m ;; k" := (bind m (fun _ => k))
  (at level 61, right associativity) : handler_scope.
Local Open Scope handler_scope.

Definition console_error {S} (msg : string) : Handler S unit :=
  emit (EvConsole ConsoleError msg).

Definition console_log {S} (msg : string) : Handler S unit :=
  emit (EvConsole ConsoleLog msg).

(* ------------------------------------------------------------------ *)
(** ** The handlers *)
(* ------------------------------------------------------------------ *)

Section Handlers.

Context {RT : Runtime} {S : Type} {D : Db S}.
Variable env : Env.

(** *** Collaborator calls, each leaving its event on the trace *)

Definition fetch (site : Site) (req : Request) : Handler S Response :=
  fun w =>
    let out := fetch_oracle env (trace w) req in
    (out, {| store := store w; trace := trace w ++ [EvFetch site req out] |}).

Definition Date_now : Handler S Z := fun w => (Ok (clock env (trace w)), w).

Definition tweets_getCount : Handler S Z :=
  emit EvGetCount ;; fun w => (db_getCount (store w), w).

Definition tweets_deleteAll : Handler S Z :=
  emit EvDeleteAll ;;
  fun w => let '(r, s') := db_deleteAll (store w) in
           (r, {| store := s'; trace := trace w |}).

Definition tweets_getAll (limit offset : Z) : Handler S (list Tweet) :=
  emit (EvGetAll limit offset) ;; fun w => (db_getAll limit offset (store w), w).

Definition tweets_updatePublished (tweet : Z) (language : Language)
    (published : bool) (link : JsVal) : Handler S bool :=
  emit (EvUpdatePublished tweet language published link) ;;
  fun w => let '(r, s') := db_updatePublished tweet language published link (store w) in
           (r, {| store := s'; trace := trace w |}).

Definition settings_get (key : string) : Handler S (option string) :=
  emit (EvSettingsGet key) ;; fun w => (db_settings_get key (store w), w).

(** *** uploadImageToWordPress (route.ts, lines 6-72) *)

(** [imgResponse.headers.get('Content-Type') || 'image/jpeg'] *)
Definition content_type_or_jpeg (r : Response) : string :=
  match content_type r with
  | Some c => if is_empty c then "image/jpeg" else c
  | None => "image/jpeg"
  end.

Definition extension_of (contentType : string) : string :=
  if includes "png" contentType then "png"
  else if includes "gif" contentType then "gif"
  else if includes "webp" contentType then "webp"
  else "jpg".

(** [urlPath.split('/').pop()?.split('?')[0] || 'tweet_image.jpg'] *)
Definition filename_of_path (urlPath : string) : string :=
  let seg := first_segment "?"%char (last_segment "/"%char urlPath EmptyString) in
  if is_empty seg then "tweet_image.jpg" else seg.

Definition uploadImageToWordPress (imageUrl : JsVal)
    (wpUrl wpUsername wpPassword : string) : Handler S (option UploadedImage) :=
  try_catch
    (imgResponse <- fetch ImageDownload
        {| req_input := imageUrl; req_method := "GET"; req_headers := [];
           req_body := NoBody; req_timeout := 30000 |} ;;
     if negb (ok imgResponse) then
       shown <- lift (interpolate imageUrl) ;;
       console_error ("Failed to download image: " ++ shown
                      ++ " - Status: " ++ string_of_Z (status imgResponse)) ;;
       ret None
     else
       urlPath <- lift (URL_pathname imageUrl) ;;
       let filename0 := filename_of_path urlPath in
       filename <-
         (if is_empty filename0 || negb (includes "." filename0) then
            let contentType := content_type_or_jpeg imgResponse in
            let ext := extension_of contentType in
            now <- Date_now ;;
            ret ("tweet_image_" ++ string_of_Z now ++ "." ++ ext)
          else ret filename0) ;;
       imgBuffer <- lift (body_arrayBuffer imgResponse) ;;
       let contentType := content_type_or_jpeg imgResponse in
       let wpMediaUrl := strip_trailing_slash wpUrl ++ "/wp-json/wp/v2/media" in
       let auth := base64 (wpUsername ++ ":" ++ wpPassword) in
       uploadResponse <- fetch MediaUpload
         {| req_input := JStr wpMediaUrl; req_method := "POST";
            req_headers := [("Authorization", "Basic " ++ auth)];
            req_body := FormData "file" filename contentType imgBuffer;
            req_timeout := 60000 |} ;;
       if status uploadResponse =? 201 then
         mediaData <- lift (body_json uploadResponse) ;;
         source_url <- lift (get_prop mediaData "source_url") ;;
         uploadedUrl <-
           (if truthy source_url then ret source_url
            else
              guid <- lift (get_prop mediaData "guid") ;;
              let rendered := get_prop_opt guid "rendered" in
              if truthy rendered then ret rendered
              else lift (get_prop mediaData "link")) ;;
         mediaId <- lift (get_prop mediaData "id") ;;
         if truthy uploadedUrl && truthy mediaId then
           shownUrl <- lift (interpolate uploadedUrl) ;;
           shownId <- lift (interpolate mediaId) ;;
           console_log ("Successfully uploaded image to WordPress: "
                        ++ shownUrl ++ " (Media ID: " ++ shownId ++ ")") ;;
           ret (Some {| mediaId := mediaId; url := uploadedUrl |})
         else
           console_error ("Upload succeeded but missing data in response: "
                          ++ JSON_stringify mediaData) ;;
           ret None
       else
         errorText <- lift (body_text uploadResponse) ;;
         console_error ("Failed to upload image to WordPress: "
                        ++ string_of_Z (status uploadResponse) ++ " - " ++ errorText) ;;
         ret None)
    (fun error =>
       console_error ("Error uploading image to WordPress: " ++ message error) ;;
       ret None).

(** *** POST (route.ts, lines 74-279) *)

(** [language !== 'english' && language !== 'french'] fails exactly on the
    two strings. *)
Definition language_of (v : JsVal) : option Language :=
  match v with
  | JStr s => if String.eqb s "english" then Some english
              else if String.eqb s "french" then Some french
              else None
  | _ => None
  end.

(** The body of [media.forEach] (lines 155-162), pushing onto [mediaUrls];
    a throw leaves what was pushed before it. *)
Fixpoint media_forEach (media : list JsVal) (mediaUrls : list JsVal)
  : result unit * list JsVal :=
  match media with
  | [] => (Ok tt, mediaUrls)
  | mediaItem :: rest =>
      let url :=
        match mediaItem with
        | JStr _ => Ok mediaItem
        | _ =>
            match get_prop mediaItem "mediaUrl" with
            | Throw e => Throw e
            | Ok a =>
                if truthy a then Ok a
                else match get_prop mediaItem "url" with
                     | Throw e => Throw e
                     | Ok b => Ok (js_or b JNull)
                     end
            end
        end in
      match url with
      | Throw e => (Throw e, mediaUrls)
      | Ok u => media_forEach rest (if truthy u then mediaUrls ++ [u] else mediaUrls)
      end
  end.

(** Lines 151-166: [mediaUrls] after the try/catch around the decoding. *)
Definition decode_media_urls (media_urls : JsVal) : list JsVal :=
  match (if truthy media_urls then JSON_parse (ToString media_urls)
         else Ok (JArr [])) with
  | Throw _ => []
  | Ok (JArr media) =>
      if 0 <? Z.of_nat (List.length media) then snd (media_forEach media []) else []
  | Ok _ => []
  end.

(** Lines 183-189: the upload loop. *)
Fixpoint upload_all (mediaUrls : list JsVal) (wpUrl wpUsername wpPassword : string)
    (uploadedImages : list UploadedImage) : Handler S (list UploadedImage) :=
  match mediaUrls with
  | [] => ret uploadedImages
  | imageUrl :: rest =>
      uploadResult <- uploadImageToWordPress imageUrl wpUrl wpUsername wpPassword ;;
      upload_all rest wpUrl wpUsername wpPassword
        (match uploadResult with
         | Some r => uploadedImages ++ [r]
         | None => uploadedImages
         end)
  end.

(** The figure of lines 205-207.  The URL of an uploaded image was rendered
    on line 57, so it has a ToString. *)
Definition figure (img : UploadedImage) (i : Z) : string :=
  "<figure style=" ++ dq ++ "margin: 0; text-align: center;" ++ dq ++ ">" ++ nl
  ++ "          <img src=" ++ dq ++ ToString (url img) ++ dq
  ++ " alt=" ++ dq ++ "Article image " ++ string_of_Z i ++ dq
  ++ " style=" ++ dq ++ "max-width: 100%; height: auto; border-radius: 8px; box-shadow: 0 2px 8px rgba(0,0,0,0.1);" ++ dq ++ " />" ++ nl
  ++ "        </figure>".

(** The loop of lines 204-208 over [uploadedImages[i..]]. *)
Fixpoint figures (images : list UploadedImage) (i : Z) : string :=
  match images with
  | [] => EmptyString
  | img :: rest => figure img i ++ figures rest (i + 1)
  end.

(** Lines 201-210. *)
Definition imagesHtml (uploadedImages : list UploadedImage) : string :=
  if 1 <? Z.of_nat (List.length uploadedImages) then
    "<div class=" ++ dq ++ "article-images" ++ dq ++ " style=" ++ dq
    ++ "margin: 30px 0; display: flex; flex-direction: column; gap: 20px;" ++ dq ++ ">"
    ++ figures (tl uploadedImages) 1
    ++ "</div>"
  else EmptyString.

(** Lines 212-215. *)
Definition fullContent (articleHtml : string) (uploadedImages : list UploadedImage)
    (tweet : Tweet) : string :=
  articleHtml ++ nl
  ++ imagesHtml uploadedImages ++ nl
  ++ "<hr>" ++ nl
  ++ "<p><em>Source: <a href=" ++ dq ++ "https://twitter.com/" ++ username tweet
  ++ "/status/" ++ tweet_id tweet ++ dq ++ " target=" ++ dq ++ "_blank" ++ dq
  ++ ">Original Tweet</a></em></p>".

(** Lines 217-225. *)
Definition postData (title : JsVal) (content : string) (status : JsVal)
    (uploadedImages : list UploadedImage) : JsVal :=
  let featuredMediaId :=
    match uploadedImages with
    | first :: _ => mediaId first
    | [] => JNull
    end in
  JObj ([("title", title);
         ("content", JStr content);
         ("status", js_or status (JStr "publish"))]
        ++ (if truthy featuredMediaId then [("featured_media", featuredMediaId)] else [])).

Definition settings_key (language : Language) (field : string) : string :=
  match language with
  | english => "wordpressEnglish" ++ field
  | french => "wordpressFrench" ++ field
  end.

Definition configured (v : option string) : bool :=
  match v with Some s => negb (is_empty s) | None => false end.

Definition setting_value (v : option string) : string :=
  match v with Some s => s | None => EmptyString end.

(** Lines 238-271: what the handler does with the answer of the
    post-creation call.  On line 243 the body has already been read by the
    [response.json()] of line 241. *)
Definition after_post (tweet : Z) (language : Language) (response : Response)
  : Handler S HttpResponse :=
  if negb (status response =? 201) then
    errorData <- try_catch (lift (body_json response))
                   (fun _ => text <- lift (text_after_read response) ;;
                             ret (JObj [("error", JStr text)])) ;;
    lift (NextResponse_json
            (JObj [("error", JStr ("WordPress API error: " ++ string_of_Z (status response)));
                   ("details", errorData)])
            (status response))
  else
    publishData <- lift (body_json response) ;;
    link <- lift (get_prop publishData "link") ;;
    success <- tweets_updatePublished tweet language true link ;;
    if negb success then
      lift (NextResponse_json
              (JObj [("error", JStr "Failed to update tweet status")]) 500)
    else
      post_id <- lift (get_prop publishData "id") ;;
      link' <- lift (get_prop publishData "link") ;;
      lift (NextResponse_json
              (JObj [("success", JBool true);
                     ("post_id", post_id);
                     ("link", link');
                     ("message", JStr ("Article published successfully to "
                                       ++ language_name language ++ " WordPress site"))])
              200).

(** Lines 119-271: the publish path, once the tweet is found and
    [published] is truthy. *)
Definition publish (tweet_pk : Z) (language : Language) (status : JsVal) (tweet : Tweet)
  : Handler S HttpResponse :=
  let articleContent :=
    match language with
    | english => article_english tweet
    | french => article_french tweet
    end in
  if negb (truthy articleContent) then
    lift (NextResponse_json
            (JObj [("error", JStr ("Article not generated for "
                                   ++ language_name language ++ " language"))])
            400)
  else
    match (match articleContent with
           | JStr text => JSON_parse text
           | _ => Ok articleContent
           end) with
    | Throw _ =>
        lift (NextResponse_json
                (JObj [("error", JStr "Invalid article data format")]) 400)
    | Ok articleData =>
        title <- lift (get_prop articleData "title") ;;
        incomplete <-
          (if negb (truthy title) then ret true
           else
             article <- lift (get_prop articleData "article") ;;
             if truthy article then ret false
             else
               content <- lift (get_prop articleData "content") ;;
               ret (negb (truthy content))) ;;
        if (incomplete : bool) then
          lift (NextResponse_json
                  (JObj [("error",
                          JStr "Invalid article format: missing title or content")])
                  400)
        else
          let mediaUrls := decode_media_urls (media_urls tweet) in
          wpUrl <- settings_get (settings_key language "Url") ;;
          wpUsername <- settings_get (settings_key language "Username") ;;
          wpPassword <- settings_get (settings_key language "Password") ;;
          if negb (configured wpUrl) || negb (configured wpUsername)
             || negb (configured wpPassword) then
            lift (NextResponse_json
                    (JObj [("error",
                            JStr ("WordPress credentials for " ++ language_name language
                                  ++ " not configured. Please set them in Settings."))])
                    500)
          else
            let wpUrl := setting_value wpUrl in
            let wpUsername := setting_value wpUsername in
            let wpPassword := setting_value wpPassword in
            let wpApiUrl := strip_trailing_slash wpUrl ++ "/wp-json/wp/v2/posts" in
            uploadedImages <- upload_all mediaUrls wpUrl wpUsername wpPassword [] ;;
            article <- lift (get_prop articleData "article") ;;
            content <- lift (get_prop articleData "content") ;;
            articleHtml <- lift (marked (js_or (js_or article content) (JStr EmptyString))) ;;
            title' <- lift (get_prop articleData "title") ;;
            let data := postData title' (fullContent articleHtml uploadedImages tweet)
                          status uploadedImages in
            let auth := base64 (wpUsername ++ ":" ++ wpPassword) in
            response <- fetch PostCreate
              {| req_input := JStr wpApiUrl; req_method := "POST";
                 req_headers := [("Content-Type", "application/json");
                                 ("Authorization", "Basic " ++ auth)];
                 req_body := TextBody (JSON_stringify data);
                 req_timeout := 60000 |} ;;
            after_post tweet_pk language response
    end.

(** [(t) => t.id === id] *)
Definition is_tweet (n : Z) (t : Tweet) : bool := id t =? n.

(** The whole handler; [params_id] is the path parameter. *)
Definition POST (request : NextRequest) (params_id : string) : Handler S HttpResponse :=
  try_catch
    (let id := parseInt params_id in
     body <- lift (request_json request) ;;
     language <- lift (get_prop body "language") ;;
     published <- lift (get_prop body "published") ;;
     status <- lift (get_prop body "status") ;;
     match id with
     | None => lift (NextResponse_json (JObj [("error", JStr "Invalid tweet ID")]) 400)
     | Some id =>
         match language_of language with
         | None =>
             lift (NextResponse_json
                     (JObj [("error",
                             JStr ("Invalid language. Must be " ++ dq ++ "english" ++ dq
                                   ++ " or " ++ dq ++ "french" ++ dq))])
                     400)
         | Some language =>
             allTweets <- tweets_getAll 10000 0 ;;
             match find (is_tweet id) allTweets with
             | None =>
                 lift (NextResponse_json (JObj [("error", JStr "Tweet not found")]) 404)
             | Some tweet =>
                 if negb (truthy published) then
                   success <- tweets_updatePublished id language false JNull ;;
                   if negb success then
                     lift (NextResponse_json
                             (JObj [("error", JStr "Failed to update tweet status")])
                             500)
                   else
                     lift (NextResponse_json (JObj [("success", JBool true)]) 200)
                 else
                   publish id language status tweet
             end
         end
     end)
    (fun error =>
       console_error ("Error publishing article: " ++ message error) ;;
       lift (NextResponse_json
               (JObj [("error", JStr "Failed to publish article");
                      ("message", JStr (message error))])
               500)).

(** *** DELETE (bulk-delete route, lines 4-24) *)

Definition DELETE : Handler S HttpResponse :=
  try_catch
    (countBefore <- tweets_getCount ;;
     deletedCount <- tweets_deleteAll ;;
     lift (NextResponse_json
             (JObj [("success", JBool true);
                    ("deletedCount", JNum deletedCount);
                    ("message", JStr ("Successfully deleted " ++ string_of_Z deletedCount
                                      ++ " tweet(s)"))])
             200))
    (fun error =>
       console_error ("Error deleting all tweets: " ++ message error) ;;
       lift (NextResponse_json
               (JObj [("error", JStr "Failed to delete tweets");
                      ("message", JStr (message error))])
               500)).

End Handlers.

(* ------------------------------------------------------------------ *)
(** ** The refinement view of the upload loop *)
(* ------------------------------------------------------------------ *)

Section UploadSpec.

Context {RT : Runtime} {S : Type} {D : Db S}.
Variable env : Env.

(** One upload attempt per media URL, in input order, each started in the
    world the previous one left; the result list has one entry per URL. *)
Fixpoint attempts (mediaUrls : list JsVal) (wpUrl wpUsername wpPassword : string)
    (w : World S) : list (option UploadedImage) * World S :=
  match mediaUrls with
  | [] => ([], w)
  | imageUrl :: rest =>
      let '(r, w1) := uploadImageToWordPress env imageUrl wpUrl wpUsername wpPassword w in
      let '(rs, w2) := attempts rest wpUrl wpUsername wpPassword w1 in
      ((match r with Ok x => x | Throw _ => None end) :: rs, w2)
  end.

(** The successful attempts, order kept. *)
Fixpoint successes (results : list (option UploadedImage)) : list UploadedImage :=
  match results with
  | [] => []
  | Some img :: rest => img :: successes rest
  | None :: rest => successes rest
  end.

End UploadSpec.

(* ------------------------------------------------------------------ *)
(** ** A list-backed store and stand-ins for the runtime *)
(* ------------------------------------------------------------------ *)

Module ListDb.

(** Modelled from the spec: the tweet and settings stores of [@/lib/db]
    (not under src/).  Rows are kept in the order [getAll] returns them;
    [getCount] counts them, [deleteAll] removes them and reports how many
    there were, [getAll(limit, offset)] returns at most [limit] rows from
    [offset] on, [updatePublished] sets the language's flag and link on the
    rows with that id and reports whether there was one, and
    [settings.get] looks a key up ([null] when unset). *)
Record ListStore : Type := {
  rows : list Tweet;
  config : list (string * string)
}.

Definition set_published (language : Language) (published : bool) (link : JsVal)
    (t : Tweet) : Tweet :=
  match language with
  | english =>
      {| id := id t; username := username t; tweet_id := tweet_id t;
         article_english := article_english t; article_french := article_french t;
         media_urls := media_urls t;
         published_english := published; link_english := link;
         published_french := published_french t; link_french := link_french t |}
  | french =>
      {| id := id t; username := username t; tweet_id := tweet_id t;
         article_english := article_english t; article_french := article_french t;
         media_urls := media_urls t;
         published_english := published_english t; link_english := link_english t;
         published_french := published; link_french := link |}
  end.

Definition getCount (s : ListStore) : result Z := Ok (Z.of_nat (List.length (rows s))).

Definition deleteAll (s : ListStore) : result Z * ListStore :=
  (Ok (Z.of_nat (List.length (rows s))), {| rows := []; config := config s |}).

Definition getAll (limit offset : Z) (s : ListStore) : result (list Tweet) :=
  Ok (firstn (Z.to_nat limit) (skipn (Z.to_nat offset) (rows s))).

Definition updatePublished (tweet : Z) (language : Language) (published : bool)
    (link : JsVal) (s : ListStore) : result bool * ListStore :=
  (Ok (existsb (is_tweet tweet) (rows s)),
   {| rows := map (fun t => if is_tweet tweet t
                            then set_published language published link t else t)
                  (rows s);
      config := config s |}).

Fixpoint assoc (key : string) (l : list (string * string)) : option string :=
  match l with
  | [] => None
  | (k, v) :: r => if String.eqb key k then Some v else assoc key r
  end.

Definition settingsGet (key : string) (s : ListStore) : result (option string) :=
  Ok (assoc key (config s)).

#[export] Instance ListStore_Db : Db ListStore := {
  db_getCount := getCount;
  db_deleteAll := deleteAll;
  db_getAll := getAll;
  db_updatePublished := updatePublished;
  db_settings_get := settingsGet
}.

(** A store whose every operation throws. *)
Definition down : Exn := Error "database is locked".

Definition Broken_Db : Db unit := {|
  db_getCount := fun _ => Throw down;
  db_deleteAll := fun s => (Throw down, s);
  db_getAll := fun _ _ _ => Throw down;
  db_updatePublished := fun _ _ _ _ s => (Throw down, s);
  db_settings_get := fun _ _ => Throw down
|}.

End ListDb.

Module Stub.

(** Stand-ins for the runtime, enough to run the handlers on examples. *)

Definition quoted (s : string) : string := dq ++ s ++ dq.

Fixpoint stringify (v : JsVal) : string :=
  match v with
  | JUndefined | JNull | JFun _ => "null"
  | JBool true => "true"
  | JBool false => "false"
  | JNum n => string_of_Z n
  | JStr s => quoted s
  | JArr items => "[" ++ join "," (map stringify items) ++ "]"
  | JObj fields =>
      "{" ++ join "," (map (fun kv => quoted (fst kv) ++ ":" ++ stringify (snd kv)) fields)
      ++ "}"
  end.

(** Documents the examples store, by their JSON text. *)
Definition article_doc : JsVal :=
  JObj [("title", JStr "Hello"); ("article", JStr "Some *text*")].

Definition media3_doc : JsVal :=
  JArr [JStr "https://pbs.example/a.png";
        JObj [("mediaUrl", JStr "https://pbs.example/b")];
        JObj [("url", JStr "https://pbs.example/c.gif")]].

Definition mixed_doc : JsVal := JArr [JStr "https://pbs.example/a.png"; JNull].

Definition documents : list JsVal := [article_doc; media3_doc; mixed_doc; JNull].

Fixpoint parse_among (docs : list JsVal) (text : string) : result JsVal :=
  match docs with
  | [] => Throw (Error "Unexpected token in JSON")
  | d :: r => if String.eqb text (stringify d) then Ok d else parse_among r text
  end.

Fixpoint from_first_slash (s : string) : string :=
  match s with
  | EmptyString => "/"
  | String c r => if Ascii.eqb c "/"%char then s else from_first_slash r
  end.

Definition pathname (v : JsVal) : result string :=
  match v with
  | JStr s =>
      match index 0 "://" s with
      | Some n =>
          Ok (first_segment "?"%char
                (from_first_slash (substring (n + 3) (String.length s) s)))
      | None => Throw (Error "Invalid URL")
      end
  | _ => Throw (Error "Invalid URL")
  end.

#[export] Instance runtime : Runtime := {
  JSON_parse := parse_among documents;
  JSON_stringify := stringify;
  marked := fun v => match v with
                     | JStr s => Ok ("<p>" ++ s ++ "</p>" ++ nl)
                     | _ => Throw (Error "marked(): input parameter is not a string")
                     end;
  base64 := fun s => "b64(" ++ s ++ ")";
  URL_pathname := pathname
}.

End Stub.

Module Demo.

Import ListDb Stub.

(** A tweet with an English article and three media entries. *)
Definition tweet1 : Tweet := {|
  id := 1; username := "alice"; tweet_id := "1790";
  article_english := JStr (stringify article_doc);
  article_french := JNull;
  media_urls := JStr (stringify media3_doc);
  published_english := false; link_english := JNull;
  published_french := false; link_french := JNull
|}.

(** The same tweet whose media list is a URL followed by [null]. *)
Definition tweet2 : Tweet := {|
  id := 2; username := "bob"; tweet_id := "1791";
  article_english := JStr (stringify article_doc);
  article_french := JNull;
  media_urls := JStr (stringify mixed_doc);
  published_english := false; link_english := JNull;
  published_french := false; link_french := JNull
|}.

Definition settings : list (string * string) :=
  [("wordpressEnglishUrl", "https://blog.example/");
   ("wordpressEnglishUsername", "admin");
   ("wordpressEnglishPassword", "secret")].

Definition store1 : ListStore := {| rows := [tweet1; tweet2]; config := settings |}.

Definition image : Response := {|
  status := 200; content_type := Some "image/png";
  body_json := Throw (Error "Unexpected token");
  body_text := Ok "PNG";
  body_arrayBuffer := Ok [Byte.x89; Byte.x50]
|}.

Definition json_response (code : Z) (v : JsVal) : Response := {|
  status := code; content_type := Some "application/json";
  body_json := Ok v;
  body_text := Ok (stringify v);
  body_arrayBuffer := Ok []
|}.

(** The answer of a gateway in front of the site: 502 with an HTML page. *)
Definition bad_gateway : Response := {|
  status := 502; content_type := Some "text/html";
  body_json := Throw (Error "Unexpected token < in JSON at position 0");
  body_text := Ok "<html><body><h1>502 Bad Gateway</h1></body></html>";
  body_arrayBuffer := Ok []
|}.

Definition media_uploads (tr : list Event) : Z :=
  Z.of_nat (List.length (filter (fun e => match e with
                                          | EvFetch MediaUpload _ _ => true
                                          | _ => false
                                          end) tr)).

(** Images download fine; the media endpoint refuses the upload numbered
    [failing] (from 0) and creates the others; the posts endpoint answers
    [post]. *)
Definition network (failing : Z) (post : Response) (tr : list Event) (req : Request)
  : result Response :=
  match req_input req with
  | JStr u =>
      if prefix "https://pbs.example/" u then Ok image
      else if String.eqb u "https://blog.example/wp-json/wp/v2/media" then
        let n := media_uploads tr in
        if n =? failing then Ok (json_response 500 (JObj [("code", JStr "rest_upload_failed")]))
        else Ok (json_response 201
                   (JObj [("id", JNum (100 + n));
                          ("source_url", JStr ("https://blog.example/up/" ++ string_of_Z n))]))
      else if String.eqb u "https://blog.example/wp-json/wp/v2/posts" then Ok post
      else Throw (Error "fetch failed")
  | _ => Throw (Error "Failed to parse URL")
  end.

Definition created : Response :=
  json_response 201 (JObj [("id", JNum 7); ("link", JStr "https://blog.example/?p=7")]).

Definition env1 (failing : Z) (post : Response) : Env :=
  {| fetch_oracle := network failing post; clock := fun _ => 1700000000000 |}.

Definition body (language : string) (published : JsVal) : NextRequest :=
  {| request_json := Ok (JObj [("language", JStr language); ("published", published)]) |}.

Definition malformed : NextRequest :=
  {| request_json := Throw (Error "Unexpected end of JSON input") |}.

End Demo.

(* ------------------------------------------------------------------ *)
(** ** Vocabulary of the properties *)
(* ------------------------------------------------------------------ *)

Local Open Scope list_scope.

(** Events an image upload may leave: the two fetches and console lines. *)
Definition upload_event (e : Event) : bool :=
  match e with
  | EvFetch ImageDownload _ _ | EvFetch MediaUpload _ _ | EvConsole _ _ => true
  | _ => false
  end.

Definition is_console (e : Event) : bool :=
  match e with EvConsole _ _ => true | _ => false end.

Definition is_update (e : Event) : bool :=
  match e with EvUpdatePublished _ _ _ _ => true | _ => false end.

Definition is_fetch (e : Event) : bool :=
  match e with EvFetch _ _ _ => true | _ => false end.

Definition is_post_create (e : Event) : bool :=
  match e with EvFetch PostCreate _ _ => true | _ => false end.

(** Neither a store update nor a post-creation call. *)
Definition quiet (e : Event) : bool := negb (is_update e) && negb (is_post_create e).

(** The image URLs the trace shows a download for, in order. *)
Fixpoint download_inputs (evs : list Event) : list JsVal :=
  match evs with
  | [] => []
  | EvFetch ImageDownload req _ :: rest => req_input req :: download_inputs rest
  | _ :: rest => download_inputs rest
  end.

(** Lines 54-55 read off a decoded media document:
    [source_url || guid?.rendered || link], and [id]. *)
Definition uploaded_url (mediaData : JsVal) : JsVal :=
  js_or (js_or (get_prop_opt mediaData "source_url")
               (get_prop_opt (get_prop_opt mediaData "guid") "rendered"))
        (get_prop_opt mediaData "link").

(** The media endpoint answered 201 with a document carrying [img]. *)
Definition created_media (up : Response) (img : UploadedImage) : Prop :=
  status up = 201
  /\ exists mediaData,
       body_json up = Ok mediaData
       /\ mediaId img = get_prop_opt mediaData "id"
       /\ url img = uploaded_url mediaData
       /\ truthy (mediaId img) = true
       /\ truthy (url img) = true.

(** A returned [{mediaId, url}] comes from exactly one successful download,
    one upload answered 201 with both fields, and a log line. *)
Definition uploaded_ok (evs : list Event) (img : UploadedImage) : Prop :=
  exists dreq dl ureq up msg,
    evs = [EvFetch ImageDownload dreq (Ok dl);
           EvFetch MediaUpload ureq (Ok up);
           EvConsole ConsoleLog msg]
    /\ ok dl = true
    /\ created_media up img.

(** The ways a fetch of the uploader counts as failed: it threw (network
    error, timeout), the download was not ok, the upload was not answered
    201, or the 201 document lacks the id or the URL. *)
Definition fetch_failed (site : Site) (out : result Response) : Prop :=
  match out with
  | Throw _ => True
  | Ok resp =>
      match site with
      | ImageDownload => ok resp = false
      | MediaUpload =>
          status resp <> 201
          \/ (forall mediaData, body_json resp = Ok mediaData ->
                truthy (get_prop_opt mediaData "id") = false
                \/ truthy (uploaded_url mediaData) = false)
      | PostCreate => False
      end
  end.

(** The response of line 245, given the decoded error body. *)
Definition wordpress_error (r : Response) (details : JsVal) : HttpResponse :=
  {| res_status := status r;
     res_body :=
       JObj [("error", JStr ("WordPress API error: " ++ string_of_Z (status r))%string);
             ("details", details)] |}.

(** The response of the top-level catch, line 274. *)
Definition failure (e : Exn) : HttpResponse :=
  {| res_status := 500;
     res_body := JObj [("error", JStr "Failed to publish article");
                       ("message", JStr (message e))] |}.

(** The calls that precede the post-creation call: the row fetch, the three
    settings reads, then the image uploads. *)
Definition preamble (language : Language) (uploads : list Event) : list Event :=
  EvGetAll 10000 0
  :: EvSettingsGet (settings_key language "Url")
  :: EvSettingsGet (settings_key language "Username")
  :: EvSettingsGet (settings_key language "Password")
  :: uploads.

(** What the handler answers when the post-creation call did not lead to a
    store update: the upstream status and error document when that document
    decodes and the status is one a response can carry, the failure of the
    top-level catch otherwise. *)
Definition unrecorded (out : result Response) (resp : HttpResponse)
    (suffix : list Event) : Prop :=
  match out with
  | Throw e => resp = failure e
  | Ok r =>
      if status r =? 201 then res_status resp = 500
      else match body_json r, response_status_error (status r) with
           | Ok d, None => resp = wordpress_error r d /\ suffix = []
           | _, _ => exists e, resp = failure e
           end
  end.

(** The request's [published] field is read and falsy. *)
Definition asks_unpublish (request : NextRequest) : Prop :=
  exists body published,
    request_json request = Ok body
    /\ get_prop body "published" = Ok published
    /\ truthy published = false.

(** The four ways a run of [POST] can go, told by the events [evs] it adds
    and the store [s'] it leaves: nothing posted or recorded; the unpublish
    path; a post-creation call without a store update; a created post
    followed by the store update. *)
Definition run_shape {S} {D : Db S} (request : NextRequest) (s s' : S)
    (evs : list Event) (resp : HttpResponse) : Prop :=
  (s' = s /\ forallb quiet evs = true)
  \/ (exists n language o suffix,
        evs = EvGetAll 10000 0 :: EvUpdatePublished n language false JNull :: suffix
        /\ forallb is_console suffix = true
        /\ db_updatePublished n language false JNull s = (o, s')
        /\ asks_unpublish request)
  \/ (exists language uploads req out suffix,
        evs = preamble language (uploads ++ EvFetch PostCreate req out :: suffix)
        /\ forallb upload_event uploads = true
        /\ forallb is_console suffix = true
        /\ s' = s
        /\ unrecorded out resp suffix)
  \/ (exists n language uploads req r link o suffix,
        evs = preamble language
                (uploads ++ EvFetch PostCreate req (Ok r)
                         :: EvUpdatePublished n language true link :: suffix)
        /\ forallb upload_event uploads = true
        /\ forallb is_console suffix = true
        /\ status r = 201
        /\ db_updatePublished n language true link s = (o, s')).

(** The tweet with its media field replaced. *)
Definition with_media_urls (m : JsVal) (t : Tweet) : Tweet := {|
  id := id t; username := username t; tweet_id := tweet_id t;
  article_english := article_english t; article_french := article_french t;
  media_urls := m;
  published_english := published_english t; link_english := link_english t;
  published_french := published_french t; link_french := link_french t
|}.

(** What one decoded media entry contributes: a non-empty string itself, an
    object its truthy [mediaUrl], else its truthy [url]; anything else
    nothing. *)
Definition entry_urls (item : JsVal) : list JsVal :=
  match item with
  | JStr s => if is_empty s then [] else [item]
  | JObj fields =>
      if truthy (lookup "mediaUrl" fields) then [lookup "mediaUrl" fields]
      else if truthy (lookup "url" fields) then [lookup "url" fields]
      else []
  | _ => []
  end.

Definition nullish (v : JsVal) : bool :=
  match v with JNull | JUndefined => true | _ => false end.

(** The URLs kept from a decoded media array: entry by entry, up to the
    first [null] entry. *)
Fixpoint collected (media : list JsVal) : list JsVal :=
  match media with
  | [] => []
  | item :: rest => if nullish item then [] else entry_urls item ++ collected rest
  end.

(** The inline gallery as the specification words it, written out without
    the loop of the handler, to be compared with what [imagesHtml] builds. *)

(** The opening tag of the gallery block. *)
Definition gallery_open : string :=
  ("<div class=" ++ dq ++ "article-images" ++ dq ++ " style=" ++ dq
   ++ "margin: 30px 0; display: flex; flex-direction: column; gap: 20px;"
   ++ dq ++ ">")%string.

(** One embedded image: a figure that shows the upload by its URL; its
    number appears in the alternative text. *)
Definition inline_image (number : nat) (img : UploadedImage) : string :=
  ("<figure style=" ++ dq ++ "margin: 0; text-align: center;" ++ dq ++ ">" ++ nl
   ++ "          <img src=" ++ dq ++ ToString (url img) ++ dq
   ++ " alt=" ++ dq ++ "Article image " ++ string_of_Z (Z.of_nat number) ++ dq
   ++ " style=" ++ dq
   ++ "max-width: 100%; height: auto; border-radius: 8px; box-shadow: 0 2px 8px rgba(0,0,0,0.1);"
   ++ dq ++ " />" ++ nl
   ++ "        </figure>")%string.

(** The elements of a list, each with its number, counted from [first]. *)
Definition numbered {A} (first : nat) (l : list A) : list (nat * A) :=
  combine (seq first (List.length l)) l.

(** The gallery: one block holding a figure for every upload after the
    first, in their order, numbered from 1; nothing when there is none. *)
Definition gallery (rest : list UploadedImage) : string :=
  match rest with
  | [] => EmptyString
  | _ =>
      (gallery_open
       ++ fold_right String.append EmptyString
            (map (fun entry => inline_image (fst entry) (snd entry)) (numbered 1 rest))
       ++ "</div>")%string
  end.

(** The attribution line closing the post body. *)
Definition attribution (tweet : Tweet) : string :=
  ("<hr>" ++ nl
   ++ "<p><em>Source: <a href=" ++ dq ++ "https://twitter.com/" ++ username tweet
   ++ "/status/" ++ tweet_id tweet ++ dq ++ " target=" ++ dq ++ "_blank" ++ dq
   ++ ">Original Tweet</a></em></p>")%string.

(** The post-creation request of lines 227-236. *)
Definition post_request {RT : Runtime} (wpUrl wpUsername wpPassword : string)
    (data : JsVal) : Request :=
  {| req_input := JStr (strip_trailing_slash wpUrl ++ "/wp-json/wp/v2/posts")%string;
     req_method := "POST";
     req_headers := [("Content-Type", "application/json");
                     ("Authorization",
                      ("Basic " ++ base64 (wpUsername ++ ":" ++ wpPassword))%string)];
     req_body := TextBody (JSON_stringify data);
     req_timeout := 60000 |}.

(** The answers of the bulk-delete handler. *)
Definition deleted (count : Z) : HttpResponse :=
  {| res_status := 200;
     res_body := JObj [("success", JBool true);
                       ("deletedCount", JNum count);
                       ("message", JStr ("Successfully deleted " ++ string_of_Z count
                                         ++ " tweet(s)")%string)] |}.

Definition delete_failure (e : Exn) : HttpResponse :=
  {| res_status := 500;
     res_body := JObj [("error", JStr "Failed to delete tweets");
                       ("message", JStr (message e))] |}.

(** [{ success: true }] *)
Definition success_only : HttpResponse :=
  {| res_status := 200; res_body := JObj [("success", JBool true)] |}.

Module Big.

Import ListDb.

(** A store of 10001 rows whose last row is the only one with id 7. *)
Definition filler : Tweet := {|
  id := 0; username := "carol"; tweet_id := "1";
  article_english := JNull; article_french := JNull; media_urls := JNull;
  published_english := false; link_english := JNull;
  published_french := false; link_french := JNull
|}.

Definition target : Tweet := {|
  id := 7; username := "dave"; tweet_id := "2";
  article_english := JNull; article_french := JNull; media_urls := JNull;
  published_english := false; link_english := JNull;
  published_french := false; link_french := JNull
|}.

Definition store : ListStore :=
  {| rows := repeat filler (Z.to_nat 10000) ++ [target]; config := [] |}.

End Big.

(* ------------------------------------------------------------------ *)
(** ** Vocabulary of the further properties *)
(* ------------------------------------------------------------------ *)

Definition is_media_upload (e : Event) : bool :=
  match e with EvFetch MediaUpload _ _ => true | _ => false end.

Definition is_download (e : Event) : bool :=
  match e with EvFetch ImageDownload _ _ => true | _ => false end.

(** The media endpoint of a site, line 36. *)
Definition media_endpoint (wpUrl : string) : string :=
  (strip_trailing_slash wpUrl ++ "/wp-json/wp/v2/media")%string.

(** The [Authorization] header of lines 42-47 and 227-233. *)
Definition basic_auth {RT : Runtime} (wpUsername wpPassword : string)
  : string * string :=
  ("Authorization", ("Basic " ++ base64 (wpUsername ++ ":" ++ wpPassword))%string).

(** What the uploader may send: a bare GET for the image, with the
    download timeout; a POST of one named file to the site's media endpoint,
    with the credentials and the upload timeout; and console lines. *)
Definition sent_by_uploader {RT : Runtime} (imageUrl : JsVal)
    (wpUrl wpUsername wpPassword : string) (e : Event) : Prop :=
  match e with
  | EvFetch ImageDownload req _ =>
      req = {| req_input := imageUrl; req_method := "GET"; req_headers := [];
               req_body := NoBody; req_timeout := 30000 |}
  | EvFetch MediaUpload req _ =>
      req_input req = JStr (media_endpoint wpUrl)
      /\ req_method req = "POST"%string
      /\ req_headers req = [basic_auth wpUsername wpPassword]
      /\ req_timeout req = 60000
      /\ exists filename contentType bytes,
           req_body req = FormData "file" filename contentType bytes
           /\ includes "." filename = true
           /\ is_empty contentType = false
  | EvConsole _ _ => True
  | _ => False
  end.

(** No character of the string is a slash. *)
Fixpoint no_slash (s : string) : bool :=
  match s with
  | EmptyString => true
  | String c r => negb (Ascii.eqb c "/"%char) && no_slash r
  end.

(** The file name an upload event carries, if it is one. *)
Definition uploaded_name (e : Event) : option string :=
  match e with
  | EvFetch MediaUpload req _ =>
      match req_body req with
      | FormData _ filename _ _ => Some filename
      | _ => None
      end
  | _ => None
  end.

(** Whether the last character is a slash. *)
Fixpoint ends_with_slash (s : string) : bool :=
  match s with
  | EmptyString => false
  | String c r => if is_empty r then Ascii.eqb c "/"%char else ends_with_slash r
  end.





(** The answer of lines 266-271. *)
Definition published_response (publishData : JsVal) (language : Language)
  : HttpResponse :=
  {| res_status := 200;
     res_body :=
       JObj [("success", JBool true);
             ("post_id", get_prop_opt publishData "id");
             ("link", get_prop_opt publishData "link");
             ("message", JStr ("Article published successfully to "
                               ++ language_name language ++ " WordPress site")%string)] |}.

(** The post was created (201) but its answer could not be used: the body
    is not JSON, or it is [null]; the handler answers with the failure. *)
Definition creation_lost (r : Response) (resp : HttpResponse) : Prop :=
  exists e,
    resp = failure e
    /\ (body_json r = Throw e
        \/ exists publishData,
             body_json r = Ok publishData /\ get_prop publishData "link" = Throw e).

(** The post was created and the store update was called with its link;
    the answer follows what the update reported. *)
Definition creation_recorded (r : Response) (language : Language) (link : JsVal)
    (o : result bool) (resp : HttpResponse) (suffix : list Event) : Prop :=
  exists publishData,
    body_json r = Ok publishData
    /\ get_prop publishData "link" = Ok link
    /\ match o with
       | Ok true => resp = published_response publishData language /\ suffix = []
       | Ok false =>
           resp = json_error "Failed to update tweet status" 500 /\ suffix = []
       | Throw e => resp = failure e
       end.

(** The request asks for [language] on tweet [n]. *)
Definition asks_for (request : NextRequest) (params_id : string) (n : Z)
    (language : Language) : Prop :=
  parseInt params_id = Some n
  /\ exists body language_v,
       request_json request = Ok body
       /\ get_prop body "language" = Ok language_v
       /\ language_of language_v = Some language.

(** The outcomes of a run of [POST], with its answer: stopped before the
    post-creation call; unpublished; post-creation call made but nothing
    recorded; post created and the store update called. *)
Definition run_outcome {S} {D : Db S} (request : NextRequest) (params_id : string)
    (s s' : S) (evs : list Event) (resp : HttpResponse) : Prop :=
  (s' = s /\ forallb quiet evs = true
   /\ (res_status resp = 400 \/ res_status resp = 404 \/ res_status resp = 500))
  \/ (exists n language o suffix,
        evs = EvGetAll 10000 0 :: EvUpdatePublished n language false JNull :: suffix
        /\ forallb is_console suffix = true
        /\ db_updatePublished n language false JNull s = (o, s')
        /\ (res_status resp = 200 \/ res_status resp = 500))
  \/ (exists language uploads req out suffix,
        evs = preamble language (uploads ++ EvFetch PostCreate req out :: suffix)
        /\ forallb upload_event uploads = true
        /\ forallb is_console suffix = true
        /\ s' = s
        /\ match out with
           | Throw e => resp = failure e
           | Ok r =>
               if status r =? 201 then creation_lost r resp
               else res_status resp = status r \/ res_status resp = 500
           end)
  \/ (exists n language uploads req r link o suffix,
        evs = preamble language
                (uploads ++ EvFetch PostCreate req (Ok r)
                         :: EvUpdatePublished n language true link :: suffix)
        /\ forallb upload_event uploads = true
        /\ forallb is_console suffix = true
        /\ status r = 201
        /\ db_updatePublished n language true link s = (o, s')
        /\ asks_for request params_id n language
        /\ creation_recorded r language link o resp suffix).

(** The tweet with the article of one language replaced. *)
Definition with_article (language : Language) (v : JsVal) (t : Tweet) : Tweet :=
  match language with
  | english =>
      {| id := id t; username := username t; tweet_id := tweet_id t;
         article_english := v; article_french := article_french t;
         media_urls := media_urls t;
         published_english := published_english t; link_english := link_english t;
         published_french := published_french t; link_french := link_french t |}
  | french =>
      {| id := id t; username := username t; tweet_id := tweet_id t;
         article_english := article_english t; article_french := v;
         media_urls := media_urls t;
         published_english := published_english t; link_english := link_english t;
         published_french := published_french t; link_french := link_french t |}
  end.

Definition is_string (v : JsVal) : bool :=
  match v with JStr _ => true | _ => false end.





(** The status of the answer of a run, when it answered. *)
Definition res_status_of {S} (run : result HttpResponse * World S) : option Z :=
  match fst run with
  | Ok resp => Some (res_status resp)
  | Throw _ => None
  end.

Module Demo2.

Import ListDb Stub Demo.

(** A network on which every fetch fails. *)
Definition offline : Env :=
  {| fetch_oracle := fun _ _ => Throw (Error "fetch failed");
     clock := fun _ => 1700000000000 |}.


(** A store holding the first tweet without its media. *)
Definition plain_store : ListStore :=
  {| rows := [with_media_urls JNull tweet1]; config := settings |}.

(** A store without any setting. *)
Definition unconfigured : ListStore := {| rows := [tweet1]; config := [] |}.

(** A store whose tweet has a title but no body. *)
Definition untitled : ListStore :=
  {| rows := [with_article english (JObj [("title", JStr "Only a title")]) tweet1];
     config := settings |}.

End Demo2.

(* ------------------------------------------------------------------ *)
(** ** Running the handlers symbolically *)
(* ------------------------------------------------------------------ *)

Local Open Scope handler_scope.
Local Arguments String.append : simpl never.
Local Arguments response_status_error !status /.
Local Arguments NextResponse_json body !status /.
Local Arguments text_after_read : simpl never.

Ltac unfold_handler :=
  unfold fetch, Date_now, tweets_getCount, tweets_deleteAll, tweets_getAll,
    tweets_updatePublished, settings_get, console_error, console_log in *;
  unfold bind, ret, lift, throw, try_catch, emit in *.

(** Split on the innermost scrutinee the run is stuck on. *)
Ltac case_split :=
  match goal with
  | |- context [match ?x with _ => _ end] =>
      lazymatch x with
      | context [match _ with _ => _ end] => fail
      | _ => destruct x eqn:?
      end
  end.

Ltac bool_hyps :=
  repeat match goal with
         | H : negb _ = true |- _ => apply negb_true_iff in H
         | H : negb _ = false |- _ => apply negb_false_iff in H
         | H : (_ && _)%bool = true |- _ => apply andb_true_iff in H; destruct H
         | H : (_ || _)%bool = false |- _ => apply orb_false_iff in H; destruct H
         end.

(** An answer that was built carries the status and the body it was given,
    and the status was acceptable. *)
Lemma NextResponse_json_Ok (body : JsVal) (status : Z) (resp : HttpResponse) :
  NextResponse_json body status = Ok resp ->
  resp = {| res_status := status; res_body := body |}
  /\ response_status_error status = None.
Proof.
  unfold NextResponse_json. destruct (response_status_error status); [discriminate|].
  intros H. inversion H. auto.
Qed.

Lemma NextResponse_json_Throw (body : JsVal) (status : Z) (e : Exn) :
  NextResponse_json body status = Throw e -> response_status_error status = Some e.
Proof.
  unfold NextResponse_json. destruct (response_status_error status); [|discriminate].
  intros H. inversion H. reflexivity.
Qed.

(** A response whose body reads a second time has a null body status, and
    with such a status no answer can be built. *)
Lemma reread_cannot_answer (r : Response) (t : string) :
  text_after_read r = Ok t -> response_status_error (status r) <> None.
Proof.
  unfold text_after_read, response_status_error.
  destruct (null_body_status (status r)); [|discriminate].
  intros _. destruct (negb _); discriminate.
Qed.

Ltac answers :=
  repeat match goal with
         | H : NextResponse_json _ _ = Ok _ |- _ =>
             apply NextResponse_json_Ok in H; destruct H as [-> H]
         | H : NextResponse_json _ _ = Throw _ |- _ =>
             apply NextResponse_json_Throw in H
         end.

Section Runs.

Context {RT : Runtime} {S : Type} {D : Db S}.
Variable env : Env.

Lemma get_prop_total (v : JsVal) (k k' : string) (x : JsVal) :
  get_prop v k = Ok x -> exists y, get_prop v k' = Ok y.
Proof.
  destruct v; simpl; intros H; try discriminate; eauto.
Qed.

Lemma get_prop_opt_ok (v : JsVal) (k : string) (x : JsVal) :
  get_prop v k = Ok x -> get_prop_opt v k = x.
Proof. unfold get_prop_opt. now intros ->. Qed.

Lemma upload_event_quiet evs :
  forallb upload_event evs = true -> forallb quiet evs = true.
Proof.
  induction evs as [|e evs IH]; simpl; [reflexivity|].
  intros H. apply andb_true_iff in H. destruct H as [He Hr].
  rewrite (IH Hr), andb_true_r.
  destruct e as [[] ? ?| | | | | |]; cbv in He |- *; congruence.
Qed.

Lemma upload_event_not_post evs :
  forallb upload_event evs = true -> filter is_post_create evs = [].
Proof.
  induction evs as [|e evs IH]; simpl; [reflexivity|].
  intros H. apply andb_true_iff in H. destruct H as [He Hr].
  rewrite (IH Hr).
  destruct e as [[] ? ?| | | | | |]; cbv in He |- *; congruence.
Qed.

Lemma console_not_post evs :
  forallb is_console evs = true -> filter is_post_create evs = [].
Proof.
  induction evs as [|e evs IH]; simpl; [reflexivity|].
  intros H. apply andb_true_iff in H. destruct H as [He Hr].
  rewrite (IH Hr). destruct e; cbv in He |- *; congruence.
Qed.

Lemma console_quiet evs :
  forallb is_console evs = true -> forallb quiet evs = true.
Proof.
  induction evs as [|e evs IH]; simpl; [reflexivity|].
  intros H. apply andb_true_iff in H. destruct H as [He Hr].
  rewrite (IH Hr), andb_true_r. destruct e; cbv in He |- *; congruence.
Qed.

Lemma quiet_no_update evs :
  forallb quiet evs = true -> forallb (fun e => negb (is_update e)) evs = true.
Proof.
  induction evs as [|e evs IH]; simpl; [reflexivity|].
  intros H. apply andb_true_iff in H. destruct H as [He Hr].
  rewrite (IH Hr), andb_true_r. unfold quiet in He.
  apply andb_true_iff in He. tauto.
Qed.

(** One run of the uploader: it returns, leaves the store alone, adds only
    upload events, starts with the download of [imageUrl] and downloads
    nothing else. *)
Lemma upload_run imageUrl wpUrl wpUsername wpPassword (w : World S) :
  exists r evs,
    uploadImageToWordPress env imageUrl wpUrl wpUsername wpPassword w
      = (Ok r, {| store := store w; trace := trace w ++ evs |})
    /\ forallb upload_event evs = true
    /\ download_inputs evs = [imageUrl]
    /\ match r with
       | Some img => uploaded_ok evs img
       | None => exists before msg, evs = before ++ [EvConsole ConsoleError msg]
       end.
Proof.
  unfold uploadImageToWordPress. unfold_handler. simpl.
  repeat (case_split; simpl; try discriminate).
  all: do 2 eexists; split; [rewrite <- ?app_assoc; simpl; reflexivity|].
  all: split; [reflexivity|]; split; [reflexivity|].
  all: try solve [ eexists [], _; reflexivity
                 | eexists [_], _; reflexivity
                 | eexists [_; _], _; reflexivity ].
  all: unfold uploaded_ok, created_media; bool_hyps;
    repeat match goal with
           | H : (_ =? _) = true |- _ => apply Z.eqb_eq in H
           end;
    do 5 eexists; split; [reflexivity|]; split; [assumption|];
    split; [assumption|]; eexists; split; [eassumption|]; simpl;
    unfold uploaded_url;
    repeat match goal with
           | H : get_prop _ _ = Ok _ |- _ => rewrite (get_prop_opt_ok _ _ _ H)
           end;
    unfold js_or;
    repeat match goal with
           | H : truthy _ = _ |- _ => rewrite H
           end;
    auto.
Qed.

Lemma download_inputs_app evs1 evs2 :
  download_inputs (evs1 ++ evs2) = download_inputs evs1 ++ download_inputs evs2.
Proof.
  induction evs1 as [|e evs1 IH]; simpl; [reflexivity|].
  destruct e as [[] ? ?| | | | | |]; simpl; now rewrite ?IH.
Qed.

(** The attempts, one per URL: the store is left alone, only upload events
    are added, the downloads follow the input order, and every success
    carries a truthy id and URL. *)
Lemma attempts_run mediaUrls wpUrl wpUsername wpPassword (w : World S) :
  exists evs,
    snd (attempts env mediaUrls wpUrl wpUsername wpPassword w)
      = {| store := store w; trace := trace w ++ evs |}
    /\ forallb upload_event evs = true
    /\ download_inputs evs = mediaUrls
    /\ List.length (fst (attempts env mediaUrls wpUrl wpUsername wpPassword w))
       = List.length mediaUrls
    /\ Forall (fun img => truthy (mediaId img) = true /\ truthy (url img) = true)
         (successes (fst (attempts env mediaUrls wpUrl wpUsername wpPassword w))).
Proof.
  revert w. induction mediaUrls as [|imageUrl rest IH]; intros w; simpl.
  - exists []. repeat split; [|constructor]. rewrite app_nil_r. now destruct w.
  - destruct (upload_run imageUrl wpUrl wpUsername wpPassword w)
      as (r & evs1 & -> & Hevs1 & Hd1 & Hr).
    specialize (IH {| store := store w; trace := trace w ++ evs1 |}).
    destruct IH as (evs2 & Hw & Hevs2 & Hd2 & Hlen & Hall).
    destruct (attempts env rest wpUrl wpUsername wpPassword _) as [rs w2].
    simpl in *. subst w2. exists (evs1 ++ evs2). repeat split.
    + now rewrite app_assoc.
    + rewrite forallb_app, Hevs1, Hevs2. reflexivity.
    + rewrite download_inputs_app, Hd1, Hd2. reflexivity.
    + now rewrite Hlen.
    + destruct r as [img|]; [|exact Hall]. constructor; [|exact Hall].
      destruct Hr as (? & ? & ? & up & ? & _ & _ & _ & md & _ & _ & _ & H1 & H2).
      auto.
Qed.

(** The loop of the handler computes the successes of the attempts. *)
Lemma upload_all_attempts mediaUrls wpUrl wpUsername wpPassword acc (w : World S) :
  upload_all env mediaUrls wpUrl wpUsername wpPassword acc w
  = (Ok (acc ++ successes (fst (attempts env mediaUrls wpUrl wpUsername wpPassword w))),
     snd (attempts env mediaUrls wpUrl wpUsername wpPassword w)).
Proof.
  revert acc w. induction mediaUrls as [|imageUrl rest IH]; intros acc w; simpl.
  - unfold ret. now rewrite app_nil_r.
  - unfold bind at 1.
    destruct (upload_run imageUrl wpUrl wpUsername wpPassword w)
      as (r & evs1 & -> & _).
    rewrite IH.
    destruct (attempts env rest wpUrl wpUsername wpPassword _) as [rs w2].
    simpl. destruct r as [img|]; simpl; [|reflexivity].
    now rewrite <- app_assoc.
Qed.

Ltac run_loop :=
  match goal with
  | |- context [upload_all ?e ?urls ?a ?b ?c ?acc ?w0] =>
      rewrite (upload_all_attempts urls a b c acc w0);
      let evs := fresh "uploads" in
      let Hw := fresh "Hw" in
      let Hq := fresh "Hq" in
      destruct (attempts_run urls a b c w0) as (evs & Hw & Hq & _ & _ & _);
      rewrite Hw; simpl
  end.

Ltac run_all := repeat first [ run_loop | case_split; simpl; try discriminate ].

Lemma POST_shape request params_id (w : World S) :
  exists resp evs s',
    POST env request params_id w
      = (Ok resp, {| store := s'; trace := trace w ++ evs |})
    /\ run_shape request (store w) s' evs resp.
Proof.
  unfold POST, publish, after_post. unfold_handler. simpl.
  run_all.
  all: answers.
  all: rewrite <- ?app_assoc; simpl.
  all: first [ do 3 eexists; split; [reflexivity|]
             | eexists; exists [], (store w);
               split; [rewrite app_nil_r; destruct w; reflexivity|] ].
  all: unfold run_shape.
  all: try solve [left; split; [reflexivity|]; simpl;
                  rewrite ?forallb_app; simpl;
                  rewrite ?upload_event_quiet by assumption; reflexivity].
  all: bool_hyps.
  all: try solve [right; left; do 4 eexists;
                  split; [reflexivity|]; split; [reflexivity|];
                  split; [eassumption|];
                  unfold asks_unpublish; eauto].
  all: try solve [
    right; right; left;
    match goal with H : language_of _ = Some ?L |- _ => exists L end;
    do 4 eexists;
    split; [reflexivity|]; split; [assumption|];
    split; [reflexivity|]; split; [reflexivity|];
    unfold unrecorded;
    repeat match goal with
           | H : (status ?r =? 201) = _ |- context [status ?r =? 201] => rewrite H
           | H : body_json ?r = _ |- context [body_json ?r] => rewrite H
           | H : response_status_error ?s = _ |- context [response_status_error ?s] =>
               rewrite H
           end;
    first [ reflexivity | split; reflexivity | eexists; reflexivity
          | exfalso; eapply reread_cannot_answer; eassumption ] ].
  all: try solve [
    right; right; right;
    match goal with H : parseInt _ = Some ?N |- _ => exists N end;
    match goal with H : language_of _ = Some ?L |- _ => exists L end;
    do 6 eexists;
    split; [reflexivity|]; split; [assumption|];
    split; [reflexivity|];
    split; [apply Z.eqb_eq; assumption | eassumption] ].
Qed.


Lemma forallb_In {A} (P : A -> bool) l x :
  forallb P l = true -> In x l -> P x = true.
Proof. intros H Hin. rewrite forallb_forall in H. auto. Qed.

(** An element singled out by [P] sits at one place only. *)
Lemma split_unique {A} (P : A -> bool) (l1 l2 l1' l2' : list A) (x x' : A) :
  l1 ++ x :: l2 = l1' ++ x' :: l2' ->
  forallb (fun a => negb (P a)) l1 = true ->
  forallb (fun a => negb (P a)) l2 = true ->
  P x' = true ->
  l1' = l1 /\ x' = x.
Proof.
  revert l1'. induction l1 as [|a l1 IH]; intros [|a' l1'] E H1 H2 Hx; simpl in *.
  - inversion E. auto.
  - inversion E; subst.
    assert (Hin : In x' (l1' ++ x' :: l2')) by (apply in_or_app; right; left; reflexivity).
    pose proof (forallb_In _ _ _ H2 Hin) as Hn. simpl in Hn.
    rewrite Hx in Hn. discriminate.
  - inversion E; subst. rewrite Hx in H1. discriminate.
  - inversion E; subst. apply andb_true_iff in H1. destruct H1 as [_ H1].
    destruct (IH l1' H3 H1 H2 Hx) as [-> ->]. auto.
Qed.

Lemma upload_event_no_update evs :
  forallb upload_event evs = true -> forallb (fun e => negb (is_update e)) evs = true.
Proof. intros H. apply quiet_no_update, upload_event_quiet, H. Qed.

Lemma console_no_update evs :
  forallb is_console evs = true -> forallb (fun e => negb (is_update e)) evs = true.
Proof. intros H. apply quiet_no_update, console_quiet, H. Qed.

(** C1. A store update marking a language as published is made only right
    after the post-creation call was answered 201; and a request that does
    not ask to unpublish, and whose post-creation call (if any) was not
    answered 201, leaves the store as it was and makes no store update. *)
Theorem published_only_after_created request params_id (s : S) :
  exists resp w',
    POST env request params_id (init s) = (Ok resp, w')
    /\ (forall before n language link after,
          trace w' = before ++ EvUpdatePublished n language true link :: after ->
          exists before' req r,
            before = before' ++ [EvFetch PostCreate req (Ok r)] /\ status r = 201)
    /\ (~ asks_unpublish request ->
        (forall req r, In (EvFetch PostCreate req (Ok r)) (trace w') -> status r <> 201) ->
        store w' = s
        /\ forallb (fun e => negb (is_update e)) (trace w') = true).
Proof.
  destruct (POST_shape request params_id (init s)) as (resp & evs & s' & Hrun & Hshape).
  exists resp, {| store := s'; trace := evs |}. split; [exact Hrun|]. simpl.
  destruct Hshape as [[-> Hq] | [(n0 & l0 & o & suffix & -> & Hc & Hdb & Hun)
    | [(l0 & uploads & req & out & suffix & -> & Hu & Hc & -> & Hout)
      | (n0 & l0 & uploads & req & r & link0 & o & suffix & -> & Hu & Hc & H201 & Hdb)]]].
  - split.
    + intros before n language link after E. exfalso.
      assert (Hin : In (EvUpdatePublished n language true link) evs)
        by (rewrite E; apply in_or_app; right; left; reflexivity).
      pose proof (forallb_In _ _ _ Hq Hin) as Hx. discriminate Hx.
    + intros _ _. split; [reflexivity|]. now apply quiet_no_update.
  - split.
    + intros before n language link after E. exfalso.
      assert (Hin : In (EvUpdatePublished n language true link)
                       (EvGetAll 10000 0 :: EvUpdatePublished n0 l0 false JNull :: suffix))
        by (rewrite E; apply in_or_app; right; left; reflexivity).
      destruct Hin as [Hin | [Hin | Hin]]; try discriminate.
      pose proof (forallb_In _ _ _ Hc Hin) as Hx. discriminate Hx.
    + intros Hno. contradiction.
  - assert (Hnone : forallb (fun e => negb (is_update e))
                      (preamble l0 (uploads ++ EvFetch PostCreate req out :: suffix)) = true).
    { unfold preamble. simpl. rewrite forallb_app. simpl.
      now rewrite (upload_event_no_update _ Hu), (console_no_update _ Hc). }
    split.
    + intros before n language link after E. exfalso.
      assert (Hin : In (EvUpdatePublished n language true link)
                       (preamble l0 (uploads ++ EvFetch PostCreate req out :: suffix)))
        by (rewrite E; apply in_or_app; right; left; reflexivity).
      pose proof (forallb_In _ _ _ Hnone Hin) as Hx. discriminate Hx.
    + intros _ _. split; [reflexivity | exact Hnone].
  - split.
    + intros before n language link after E.
      exists (preamble l0 uploads), req, r. split; [|exact H201].
      assert (E' : (preamble l0 uploads ++ [EvFetch PostCreate req (Ok r)])
                   ++ EvUpdatePublished n0 l0 true link0 :: suffix
                   = before ++ EvUpdatePublished n language true link :: after).
      { rewrite <- E. unfold preamble. simpl. now rewrite <- app_assoc. }
      apply (split_unique is_update) in E'.
      * destruct E' as [-> _]. reflexivity.
      * unfold preamble. simpl. rewrite forallb_app. simpl.
        now rewrite (upload_event_no_update _ Hu).
      * now apply console_no_update.
      * reflexivity.
    + intros _ Hno. exfalso. apply (Hno req r); [|exact H201].
      unfold preamble. simpl. do 4 right. apply in_or_app. right. left. reflexivity.
Qed.

(** The answer of the top-level catch is never the upstream error
    document. *)
Lemma failure_is_not_surfaced (e : Exn) (r : Response) (details : JsVal) :
  failure e <> wordpress_error r details.
Proof.
  unfold failure, wordpress_error. intros H.
  inversion H as [[Hs Hb]]; cbv [String.append] in Hb; discriminate Hb.
Qed.

(** C2 (code bug). What the handler does when the post-creation call is
    answered with a status other than 201.  In every such run the store is
    left as it was, no store update is made and the call is made once.  The
    upstream status and error document are passed on when the body decodes
    as JSON and the status is one a response can carry.  When the body is not
    JSON, the fallback of line 243 reads a body that line 241 has consumed:
    the handler answers 500 from the top-level catch, never the upstream
    status with the upstream text.  A status no response can carry (outside
    200..599, or 204, 205, 304) is answered 500 as well. *)
Theorem refused_post_outcomes request params_id (s : S) :
  exists resp w',
    POST env request params_id (init s) = (Ok resp, w')
    /\ forall req r,
         In (EvFetch PostCreate req (Ok r)) (trace w') -> status r <> 201 ->
         (forall d, body_json r = Ok d -> response_status_error (status r) = None ->
            resp = wordpress_error r d)
         /\ (forall e, body_json r = Throw e ->
               (exists e', resp = failure e')
               /\ forall details, resp <> wordpress_error r details)
         /\ (forall e, response_status_error (status r) = Some e ->
               exists e', resp = failure e')
         /\ store w' = s
         /\ forallb (fun e => negb (is_update e)) (trace w') = true
         /\ List.length (filter is_post_create (trace w')) = 1%nat.
Proof.
  destruct (POST_shape request params_id (init s)) as (resp & evs & s' & Hrun & Hshape).
  exists resp, {| store := s'; trace := evs |}. split; [exact Hrun|]. simpl.
  intros rq r Hin Hstatus.
  destruct Hshape as [[-> Hq] | [(n0 & l0 & o & suffix & -> & Hc & Hdb & Hun)
    | [(l0 & uploads & req & out & suffix & -> & Hu & Hc & -> & Hout)
      | (n0 & l0 & uploads & req & r0 & link0 & o & suffix & -> & Hu & Hc & H201 & Hdb)]]].
  - pose proof (forallb_In _ _ _ Hq Hin) as Hx. discriminate Hx.
  - destruct Hin as [Hin | [Hin | Hin]]; try discriminate.
    pose proof (forallb_In _ _ _ Hc Hin) as Hx. discriminate Hx.
  - assert (Hout' : out = Ok r).
    { unfold preamble in Hin.
      destruct Hin as [Hin | [Hin | [Hin | [Hin | Hin]]]]; try discriminate.
      apply in_app_or in Hin. destruct Hin as [Hin | [Hin | Hin]].
      - pose proof (forallb_In _ _ _ Hu Hin) as Hx. discriminate Hx.
      - congruence.
      - pose proof (forallb_In _ _ _ Hc Hin) as Hx. discriminate Hx. }
    subst out. unfold unrecorded in Hout.
    apply Z.eqb_neq in Hstatus. rewrite Hstatus in Hout.
    split; [|split; [|split; [|split; [reflexivity|split]]]].
    + intros d Hd Hnone. rewrite Hd, Hnone in Hout. tauto.
    + intros e He. rewrite He in Hout. split; [exact Hout|].
      destruct Hout as [e' ->]. intros details. apply failure_is_not_surfaced.
    + intros e He. rewrite He in Hout. destruct (body_json r); exact Hout.
    + unfold preamble. simpl. rewrite forallb_app. simpl.
      now rewrite (upload_event_no_update _ Hu), (console_no_update _ Hc).
    + unfold preamble. simpl. rewrite filter_app. simpl.
      now rewrite (upload_event_not_post _ Hu), (console_not_post _ Hc).
  - exfalso. unfold preamble in Hin.
    destruct Hin as [Hin | [Hin | [Hin | [Hin | Hin]]]]; try discriminate.
    apply in_app_or in Hin. destruct Hin as [Hin | [Hin | [Hin | Hin]]].
    + pose proof (forallb_In _ _ _ Hu Hin) as Hx. discriminate Hx.
    + congruence.
    + discriminate.
    + pose proof (forallb_In _ _ _ Hc Hin) as Hx. discriminate Hx.
Qed.

(** The unpublish path, for any falsy [published]. *)
Lemma unpublish_run request params_id n body language_v language published
    allTweets tweet (w : World S) :
  parseInt params_id = Some n ->
  request_json request = Ok body ->
  get_prop body "language" = Ok language_v ->
  language_of language_v = Some language ->
  get_prop body "published" = Ok published ->
  truthy published = false ->
  db_getAll 10000 0 (store w) = Ok allTweets ->
  find (is_tweet n) allTweets = Some tweet ->
  exists resp suffix o s',
    db_updatePublished n language false JNull (store w) = (o, s')
    /\ POST env request params_id w
       = (Ok resp,
          {| store := s';
             trace := trace w ++ EvGetAll 10000 0
                              :: EvUpdatePublished n language false JNull :: suffix |})
    /\ forallb is_console suffix = true
    /\ match o with
       | Ok true => resp = success_only /\ suffix = []
       | Ok false => resp = json_error "Failed to update tweet status" 500 /\ suffix = []
       | Throw e => resp = failure e
       end.
Proof.
  intros Hid Hbody Hlang Hlangof Hpub Hfalsy Hall Hfind.
  destruct (get_prop_total _ _ "status" _ Hlang) as [st Hst].
  destruct (db_updatePublished n language false JNull (store w)) as [o s'] eqn:Hdb.
  unfold POST. unfold_handler. simpl.
  rewrite Hid, Hbody, Hlang, Hpub, Hst, Hlangof. simpl.
  rewrite Hall, Hfind, Hfalsy. simpl. rewrite Hdb.
  destruct o as [[|]|e]; simpl; rewrite <- ?app_assoc; simpl;
    do 4 eexists; (split; [reflexivity|]); (split; [reflexivity|]);
    (split; [reflexivity|]); auto.
Qed.

(** C3. A request with [published = false] for a tweet the lookup finds and
    a valid language makes no fetch at all, calls
    [updatePublished(id, language, false, null)] once, and answers
    [{success: true}] when that update reports success, 500 when it reports
    failure or throws. *)
Theorem unpublish_false request params_id n body language_v language
    allTweets tweet (w : World S) :
  parseInt params_id = Some n ->
  request_json request = Ok body ->
  get_prop body "language" = Ok language_v ->
  language_of language_v = Some language ->
  get_prop body "published" = Ok (JBool false) ->
  db_getAll 10000 0 (store w) = Ok allTweets ->
  find (is_tweet n) allTweets = Some tweet ->
  exists resp evs o s',
    db_updatePublished n language false JNull (store w) = (o, s')
    /\ POST env request params_id w
       = (Ok resp, {| store := s'; trace := trace w ++ evs |})
    /\ forallb (fun e => negb (is_fetch e)) evs = true
    /\ filter is_update evs = [EvUpdatePublished n language false JNull]
    /\ match o with
       | Ok true => resp = success_only
       | _ => res_status resp = 500
       end.
Proof.
  intros Hid Hbody Hlang Hlangof Hpub Hall Hfind.
  destruct (unpublish_run request params_id n body language_v language (JBool false)
              allTweets tweet w Hid Hbody Hlang Hlangof Hpub eq_refl Hall Hfind)
    as (resp & suffix & o & s' & Hdb & Hrun & Hc & Hresp).
  exists resp, (EvGetAll 10000 0 :: EvUpdatePublished n language false JNull :: suffix), o, s'.
  split; [exact Hdb|]. split; [exact Hrun|]. simpl.
  assert (Hnf : forallb (fun e => negb (is_fetch e)) suffix = true).
  { clear - Hc. induction suffix as [|e l IH]; simpl in *; [reflexivity|].
    apply andb_true_iff in Hc. destruct Hc as [He Hl]. rewrite (IH Hl).
    destruct e; simpl in *; congruence. }
  assert (Hnu : filter is_update suffix = []).
  { clear - Hc. induction suffix as [|e l IH]; simpl in *; [reflexivity|].
    apply andb_true_iff in Hc. destruct Hc as [He Hl]. rewrite (IH Hl).
    destruct e; simpl in *; congruence. }
  rewrite Hnf, Hnu. repeat split.
  destruct o as [[|]|e]; [tauto | destruct Hresp as [-> _]; reflexivity | now subst resp].
Qed.

Lemma lookup_absent (k : string) (fields : list (string * JsVal)) :
  ~ In k (map fst fields) -> lookup k fields = JUndefined.
Proof.
  induction fields as [|[k' v] fields IH]; simpl; [reflexivity|].
  intros H. destruct (String.eqb_spec k k') as [->|Hne]; [exfalso; auto|].
  apply IH. tauto.
Qed.

(** C10. The unpublish branch is taken on any falsy [published]: the values
    [false], [0], the empty string, [null] and the value read from a body
    without a [published] key are all falsy, and for every falsy value the
    handler (for a tweet the lookup finds and a valid language) calls
    [updatePublished(id, language, false, null)] and makes no fetch; with
    a successful update its answer is [{success: true}], not an error. *)
Theorem unpublish_on_falsy :
  truthy (JBool false) = false
  /\ truthy (JNum 0) = false
  /\ truthy (JStr EmptyString) = false
  /\ truthy JNull = false
  /\ (forall fields, ~ In "published"%string (map fst fields) ->
        exists v, get_prop (JObj fields) "published" = Ok v /\ truthy v = false)
  /\ forall request params_id n body language_v language published
        allTweets tweet (w : World S),
      parseInt params_id = Some n ->
      request_json request = Ok body ->
      get_prop body "language" = Ok language_v ->
      language_of language_v = Some language ->
      get_prop body "published" = Ok published ->
      truthy published = false ->
      db_getAll 10000 0 (store w) = Ok allTweets ->
      find (is_tweet n) allTweets = Some tweet ->
      exists resp suffix o s',
        db_updatePublished n language false JNull (store w) = (o, s')
        /\ POST env request params_id w
           = (Ok resp,
              {| store := s';
                 trace := trace w ++ EvGetAll 10000 0
                                  :: EvUpdatePublished n language false JNull :: suffix |})
        /\ forallb is_console suffix = true
        /\ (o = Ok true -> resp = success_only).
Proof.
  repeat split.
  - intros fields Hno. exists JUndefined. simpl. now rewrite (lookup_absent _ _ Hno).
  - intros request params_id n body language_v language published allTweets tweet w
      Hid Hbody Hlang Hlangof Hpub Hfalsy Hall Hfind.
    destruct (unpublish_run request params_id n body language_v language published
                allTweets tweet w Hid Hbody Hlang Hlangof Hpub Hfalsy Hall Hfind)
      as (resp & suffix & o & s' & Hdb & Hrun & Hc & Hresp).
    exists resp, suffix, o, s'. repeat split; try assumption.
    intros ->. tauto.
Qed.

(** C8. The uploader returns on every input, never throwing to its caller
    and never touching the store.  A result is returned only after a
    successful download and an upload answered 201 with an id and a URL;
    without a result the last thing the run did was log an error.  Any
    failed fetch (thrown, download not ok, upload not 201, or a 201 document
    lacking the id or the URL) means no result, and on no result the upload
    loop goes on to the next URL with the list of uploads as it was. *)
Theorem uploader_never_throws imageUrl wpUrl wpUsername wpPassword (w : World S) :
  exists r evs,
    uploadImageToWordPress env imageUrl wpUrl wpUsername wpPassword w
      = (Ok r, {| store := store w; trace := trace w ++ evs |})
    /\ match r with
       | Some img => uploaded_ok evs img
       | None => exists before msg, evs = before ++ [EvConsole ConsoleError msg]
       end
    /\ (forall site req out,
          In (EvFetch site req out) evs -> fetch_failed site out -> r = None)
    /\ (forall rest acc,
          upload_all env (imageUrl :: rest) wpUrl wpUsername wpPassword acc w
          = upload_all env rest wpUrl wpUsername wpPassword
              (match r with Some img => acc ++ [img] | None => acc end)
              {| store := store w; trace := trace w ++ evs |}).
Proof.
  destruct (upload_run imageUrl wpUrl wpUsername wpPassword w)
    as (r & evs & Hrun & _ & _ & Hr).
  exists r, evs. split; [exact Hrun|]. split; [exact Hr|]. split.
  - intros site req out Hin Hfail. destruct r as [img|]; [exfalso|reflexivity].
    destruct Hr as (dreq & dl & ureq & up & msg & -> & Hok & H201 & md & Hmd & Hid & Hurl & Tid & Turl).
    destruct Hin as [Hin | [Hin | [Hin | []]]]; inversion Hin; subst; simpl in Hfail.
    + congruence.
    + destruct Hfail as [Hfail | Hfail]; [contradiction|].
      destruct (Hfail md Hmd) as [Hf | Hf]; congruence.
  - intros rest acc. simpl. unfold bind at 1. rewrite Hrun. reflexivity.
Qed.

(** C4 (amended). When the path id does not parse to an integer and the
    request body decodes to a value other than [null], the handler answers
    400 "Invalid tweet ID" whatever the body holds, and does nothing else. *)
Theorem invalid_id_is_400 request params_id body (w : World S) :
  parseInt params_id = None ->
  request_json request = Ok body ->
  nullish body = false ->
  POST env request params_id w = (Ok (json_error "Invalid tweet ID" 400), w).
Proof.
  intros Hid Hbody Hnn. unfold POST. unfold_handler. simpl.
  rewrite Hid, Hbody.
  destruct body; simpl in *; try discriminate; reflexivity.
Qed.

Lemma append_cons (c : ascii) (s r : string) :
  (String c s ++ r)%string = String c (s ++ r)%string.
Proof. reflexivity. Qed.

Lemma append_empty (s : string) : (s ++ EmptyString)%string = s.
Proof.
  induction s as [|c s IH]; [reflexivity|]. rewrite append_cons. now rewrite IH.
Qed.

Lemma includes_here (sub rest : string) : includes sub (sub ++ rest) = true.
Proof.
  assert (H : prefix sub (sub ++ rest) = true).
  { induction sub as [|c sub IH]; simpl; [now destruct rest|].
    destruct (ascii_dec c c); [exact IH | congruence]. }
  destruct sub, rest; simpl in *; rewrite ?H; reflexivity.
Qed.

Lemma includes_later (sub before rest : string) :
  includes sub rest = true -> includes sub (before ++ rest) = true.
Proof.
  induction before as [|c before IH]; simpl; intros H; [exact H|].
  rewrite (IH H). apply orb_true_r.
Qed.

Lemma prefix_app (p s t : string) :
  prefix p s = true -> prefix p (s ++ t) = true.
Proof.
  revert p. induction s as [|c s IH]; intros [|a p] H.
  - destruct t; reflexivity.
  - discriminate H.
  - reflexivity.
  - rewrite append_cons. simpl in *.
    destruct (ascii_dec a c); [apply IH; exact H | discriminate H].
Qed.

Lemma includes_before (sub s after : string) :
  includes sub s = true -> includes sub (s ++ after) = true.
Proof.
  induction s as [|c s IH]; intros H.
  - destruct sub; [|discriminate H]. destruct after; reflexivity.
  - rewrite append_cons. simpl in H |- *.
    apply orb_true_iff in H. apply orb_true_iff. destruct H as [H | H].
    + left. apply (prefix_app _ (String c s) after) in H. exact H.
    + right. apply IH. exact H.
Qed.

(** The loop of lines 204-208 writes the figures of the gallery. *)
Lemma figures_numbered (images : list UploadedImage) (first : nat) :
  figures images (Z.of_nat first)
  = fold_right String.append EmptyString
      (map (fun entry => inline_image (fst entry) (snd entry)) (numbered first images)).
Proof.
  revert first. induction images as [|img images IH]; intros first; [reflexivity|].
  unfold numbered. cbn [figures List.length seq combine map fold_right fst snd].
  replace (Z.of_nat first + 1) with (Z.of_nat (Datatypes.S first)) by lia.
  rewrite IH. reflexivity.
Qed.

Lemma imagesHtml_cons first rest : imagesHtml (first :: rest) = gallery rest.
Proof.
  unfold imagesHtml, gallery. destruct rest as [|img rest]; [reflexivity|].
  replace (1 <? Z.of_nat (List.length (first :: img :: rest))) with true
    by (symmetry; apply Z.ltb_lt; simpl List.length; lia).
  cbn [tl]. pose proof (figures_numbered (img :: rest) 1) as Hloop.
  change (Z.of_nat 1) with 1 in Hloop. rewrite Hloop. reflexivity.
Qed.

(** Every upload after the first is shown in the gallery by its URL. *)
Lemma gallery_embeds (rest : list UploadedImage) (img : UploadedImage) :
  In img rest -> includes (ToString (url img)) (gallery rest) = true.
Proof.
  intros Hin.
  assert (H : forall first l, In img l ->
            includes (ToString (url img))
              (fold_right String.append EmptyString
                 (map (fun entry => inline_image (fst entry) (snd entry))
                    (numbered first l))) = true).
  { intros first l. revert first. induction l as [|x l IH]; intros first Hl;
      [contradiction|].
    unfold numbered. cbn [List.length seq combine map fold_right fst snd].
    destruct Hl as [-> | Hl].
    - apply includes_before. unfold inline_image.
      do 8 apply includes_later. apply includes_here.
    - apply includes_later. apply (IH (Datatypes.S first) Hl). }
  unfold gallery. destruct rest as [|x rest]; [contradiction|].
  apply includes_later, includes_before, H, Hin.
Qed.

(** C5. On a publish run that gets as far as the uploads, each media URL is
    tried once, in input order, and a failed attempt is skipped; the post
    that is then submitted is built from the successful uploads in that
    order: the first one's media id is its [featured_media], and the others
    are embedded, each by its URL and in their order, in the gallery block
    that follows the article body.  With three URLs of which only the second
    fails, the featured image is the first upload and the gallery holds the
    third alone. *)
Theorem uploads_feed_the_post tweet_pk language status tweet (w : World S)
    articleData title article content html wpUrl wpUsername wpPassword :
  let articleContent :=
    match language with
    | english => article_english tweet
    | french => article_french tweet
    end in
  truthy articleContent = true ->
  match articleContent with
  | JStr text => JSON_parse text
  | _ => Ok articleContent
  end = Ok articleData ->
  get_prop articleData "title" = Ok title ->
  truthy title = true ->
  get_prop articleData "article" = Ok article ->
  get_prop articleData "content" = Ok content ->
  truthy article || truthy content = true ->
  marked (js_or (js_or article content) (JStr EmptyString)) = Ok html ->
  db_settings_get (settings_key language "Url") (store w) = Ok (Some wpUrl) ->
  db_settings_get (settings_key language "Username") (store w) = Ok (Some wpUsername) ->
  db_settings_get (settings_key language "Password") (store w) = Ok (Some wpPassword) ->
  is_empty wpUrl = false ->
  is_empty wpUsername = false ->
  is_empty wpPassword = false ->
  let mediaUrls := decode_media_urls (media_urls tweet) in
  let w0 := {| store := store w;
               trace := trace w ++ [EvSettingsGet (settings_key language "Url");
                                    EvSettingsGet (settings_key language "Username");
                                    EvSettingsGet (settings_key language "Password")] |} in
  let run := attempts env mediaUrls wpUrl wpUsername wpPassword w0 in
  let images := successes (fst run) in
  let data := postData title (fullContent html images tweet) status images in
  exists uploads,
    snd run = {| store := store w; trace := trace w0 ++ uploads |}
    /\ download_inputs uploads = mediaUrls
    /\ List.length (fst run) = List.length mediaUrls
    /\ publish env tweet_pk language status tweet w
       = (response <- fetch env PostCreate
                        (post_request wpUrl wpUsername wpPassword data) ;;
          after_post tweet_pk language response) (snd run)
    /\ (forall first rest, images = first :: rest ->
          get_prop data "featured_media" = Ok (mediaId first)
          /\ get_prop data "content"
             = Ok (JStr (html ++ nl ++ gallery rest ++ nl ++ attribution tweet)%string)
          /\ forall img, In img rest ->
               includes (ToString (url img)) (gallery rest) = true)
    /\ (forall i1 i3, fst run = [Some i1; None; Some i3] ->
          get_prop data "featured_media" = Ok (mediaId i1)
          /\ get_prop data "content"
             = Ok (JStr (html ++ nl
                         ++ (gallery_open ++ inline_image 1 i3 ++ "</div>") ++ nl
                         ++ attribution tweet)%string)).
Proof.
  intros articleContent Hcontent Hdecode Htitle Ttitle Harticle Hbody Tbody Hmarked
    Hurl Huser Hpass Nurl Nuser Npass mediaUrls w0 run images data.
  destruct (attempts_run mediaUrls wpUrl wpUsername wpPassword w0)
    as (uploads & Hw & _ & Hd & Hlen & Hall).
  assert (Hfeat : forall first rest, images = first :: rest ->
            get_prop data "featured_media" = Ok (mediaId first)
            /\ get_prop data "content"
               = Ok (JStr (html ++ nl ++ gallery rest ++ nl ++ attribution tweet)%string)).
  { intros first rest E. subst data. rewrite E.
    change (Forall (fun img => truthy (mediaId img) = true /\ truthy (url img) = true)
              images) in Hall.
    rewrite E in Hall. inversion Hall as [|? ? [Tid _] _]; subst.
    unfold postData. rewrite Tid. simpl. split; [reflexivity|].
    unfold fullContent. rewrite imagesHtml_cons. reflexivity. }
  exists uploads. split; [exact Hw|]. split; [exact Hd|]. split; [exact Hlen|].
  split; [|split].
  - unfold publish. fold articleContent. rewrite Hcontent. simpl.
    rewrite Hdecode. unfold_handler. simpl.
    rewrite Htitle, Ttitle. simpl. rewrite Harticle.
    destruct (truthy article) eqn:Ta; simpl;
      [|rewrite Hbody; simpl in Tbody; rewrite Tbody; simpl].
    all: rewrite Hurl; simpl; rewrite Huser; simpl; rewrite Hpass; simpl.
    all: rewrite Nurl, Nuser, Npass; simpl.
    all: rewrite upload_all_attempts; rewrite <- !app_assoc; simpl.
    all: rewrite ?Harticle, ?Hbody, ?Hmarked, ?Htitle; simpl;
      rewrite ?Hmarked; reflexivity.
  - intros first rest E. destruct (Hfeat first rest E) as [Hf Hc].
    split; [exact Hf|]. split; [exact Hc|]. intros img. apply gallery_embeds.
  - intros i1 i3 E.
    destruct (Hfeat i1 [i3]) as [Hf Hc]; [unfold images; rewrite E; reflexivity|].
    split; [exact Hf|]. rewrite Hc. unfold gallery, numbered.
    cbn [List.length seq combine map fold_right fst snd].
    now rewrite append_empty.
Qed.

Lemma media_forEach_collected media acc :
  snd (media_forEach media acc) = acc ++ collected media.
Proof.
  revert acc. induction media as [|item rest IH]; intros acc; simpl.
  - now rewrite app_nil_r.
  - destruct item; simpl; rewrite ?app_nil_r; try reflexivity;
      try (rewrite IH; reflexivity).
    + rewrite IH. destruct (is_empty s); simpl; [reflexivity|].
      now rewrite <- app_assoc.
    + destruct (truthy (lookup "mediaUrl" fields)) eqn:Ha; simpl.
      * rewrite Ha, IH. now rewrite <- app_assoc.
      * unfold js_or. destruct (truthy (lookup "url" fields)) eqn:Hb; simpl.
        -- rewrite Hb, IH. now rewrite <- app_assoc.
        -- rewrite IH. reflexivity.
Qed.

(** C7 (amended). Decoding the media field never fails the request: its
    errors are swallowed.  Malformed JSON, a non-array value or an empty
    field leave no media; in an array, entries that are neither non-empty
    strings nor objects with a truthy [mediaUrl] or [url] are skipped, and a
    [null] entry ends the decoding with the URLs collected before it.  The
    pipeline depends on the field only through the URLs so collected.  A
    decode failure of the article itself is answered 400 "Invalid article
    data format". *)
Theorem media_decoding_is_soft :
  (forall m e, truthy m = true -> JSON_parse (ToString m) = Throw e ->
     decode_media_urls m = [])
  /\ (forall m v, truthy m = true -> JSON_parse (ToString m) = Ok v ->
        (forall media, v <> JArr media) -> decode_media_urls m = [])
  /\ (forall m, truthy m = false -> decode_media_urls m = [])
  /\ (forall m media, truthy m = true -> JSON_parse (ToString m) = Ok (JArr media) ->
        decode_media_urls m = collected media)
  /\ (forall tweet_pk language status tweet m m' (w : World S),
        decode_media_urls m = decode_media_urls m' ->
        publish env tweet_pk language status (with_media_urls m tweet) w
        = publish env tweet_pk language status (with_media_urls m' tweet) w)
  /\ (forall tweet_pk language status tweet text e (w : World S),
        match language with
        | english => article_english tweet
        | french => article_french tweet
        end = JStr text ->
        is_empty text = false ->
        JSON_parse text = Throw e ->
        publish env tweet_pk language status tweet w
        = (Ok (json_error "Invalid article data format" 400), w)).
Proof.
  repeat split.
  - intros m e Tm Hp. unfold decode_media_urls. now rewrite Tm, Hp.
  - intros m v Tm Hp Hna. unfold decode_media_urls. rewrite Tm, Hp.
    destruct v; try reflexivity. exfalso. now apply (Hna items).
  - intros m Tm. unfold decode_media_urls. now rewrite Tm.
  - intros m media Tm Hp. unfold decode_media_urls. rewrite Tm, Hp.
    destruct media as [|item rest]; [reflexivity|].
    replace (0 <? Z.of_nat (List.length (item :: rest))) with true
      by (symmetry; apply Z.ltb_lt; simpl List.length; lia).
    now rewrite media_forEach_collected.
  - intros tweet_pk language status tweet m m' w E.
    unfold publish. destruct language; simpl; rewrite E; reflexivity.
  - intros tweet_pk language status tweet text e w Hart Ne Hp.
    unfold publish. rewrite Hart. simpl. rewrite Ne. simpl. rewrite Hp. reflexivity.
Qed.

(** Whether the handler answers "Tweet not found" is decided by the search
    in the rows [getAll(10000, 0)] returned. *)
Lemma not_found_iff request params_id n body language_v language allTweets
    (w : World S) :
  parseInt params_id = Some n ->
  request_json request = Ok body ->
  get_prop body "language" = Ok language_v ->
  language_of language_v = Some language ->
  db_getAll 10000 0 (store w) = Ok allTweets ->
  (find (is_tweet n) allTweets = None ->
   POST env request params_id w
   = (Ok (json_error "Tweet not found" 404),
      {| store := store w; trace := trace w ++ [EvGetAll 10000 0] |}))
  /\ (find (is_tweet n) allTweets <> None ->
      fst (POST env request params_id w) <> Ok (json_error "Tweet not found" 404)).
Proof.
  intros Hid Hbody Hlang Hlangof Hall.
  destruct (get_prop_total _ _ "status" _ Hlang) as [st Hst].
  destruct (get_prop_total _ _ "published" _ Hlang) as [pb Hpb].
  split.
  - intros Hfind. unfold POST. unfold_handler. simpl.
    rewrite Hid, Hbody, Hlang, Hpb, Hst, Hlangof. simpl.
    rewrite Hall, Hfind. reflexivity.
  - intros Hfind. destruct (find (is_tweet n) allTweets) as [tweet|] eqn:Hf;
      [clear Hfind|congruence].
    unfold POST, publish, after_post. unfold_handler. simpl.
    rewrite Hid, Hbody, Hlang, Hpb, Hst, Hlangof. simpl.
    rewrite Hall, Hf.
    run_all.
    all: answers.
    all: unfold json_error; simpl; congruence.
Qed.

End Runs.

(* ------------------------------------------------------------------ *)
(** ** The handlers over the list-backed store *)
(* ------------------------------------------------------------------ *)

Section OverLists.

Import ListDb.

Lemma find_none_iff {A} (f : A -> bool) (l : list A) :
  find f l = None <-> forall x, In x l -> f x = false.
Proof.
  split; [apply find_none|].
  induction l as [|a l IH]; simpl; [reflexivity|].
  intros H. rewrite (H a (or_introl eq_refl)). apply IH. auto.
Qed.

(** C6. On the list-backed store a bulk delete answers with the number of
    rows the store held and leaves it empty, so a second call reports 0;
    on any store, a throwing count or delete is answered 500 with the
    error's message. *)
Theorem delete_all_reports_count :
  (forall (s : ListStore) (tr : list Event),
     exists w' w'',
       DELETE {| store := s; trace := tr |}
         = (Ok (deleted (Z.of_nat (List.length (rows s)))), w')
       /\ rows (store w') = []
       /\ DELETE w' = (Ok (deleted 0), w'')
       /\ rows (store w'') = [])
  /\ (forall (S : Type) (D : Db S) (w : World S) (e : Exn),
        db_getCount (store w) = Throw e
        \/ ((exists n, db_getCount (store w) = Ok n)
            /\ fst (db_deleteAll (store w)) = Throw e) ->
        exists w', DELETE w = (Ok (delete_failure e), w')
                   /\ res_status (delete_failure e) = 500).
Proof.
  split.
  - intros s tr. do 2 eexists. unfold DELETE. unfold_handler. simpl.
    repeat split.
  - intros S D w e [Hc | [[n Hc] Hd]]; unfold DELETE; unfold_handler; simpl;
      rewrite Hc; simpl.
    + eexists. split; reflexivity.
    + destruct (db_deleteAll (store w)) as [r s'] eqn:E. simpl in Hd. subst r.
      simpl. eexists. split; reflexivity.
Qed.

Context {RT : Runtime}.
Variable env : Env.

(** C9. Over the list-backed store, whether the tweet exists is decided on
    the first 10000 rows, fetched by the one call [getAll(10000, 0)]: when
    none of them has the id the answer is 404 "Tweet not found" (whatever
    lies beyond them), and when one has it the answer is another. *)
Theorem lookup_stops_at_10000 request params_id n body language_v language
    (s : ListStore) (tr : list Event) :
  parseInt params_id = Some n ->
  request_json request = Ok body ->
  get_prop body "language" = Ok language_v ->
  language_of language_v = Some language ->
  ((forall t, In t (firstn (Z.to_nat 10000) (rows s)) -> id t <> n) ->
   POST env request params_id {| store := s; trace := tr |}
   = (Ok (json_error "Tweet not found" 404),
      {| store := s; trace := tr ++ [EvGetAll 10000 0] |}))
  /\ ((exists t, In t (firstn (Z.to_nat 10000) (rows s)) /\ id t = n) ->
      fst (POST env request params_id {| store := s; trace := tr |})
      <> Ok (json_error "Tweet not found" 404)).
Proof.
  intros Hid Hbody Hlang Hlangof.
  assert (Hall : db_getAll 10000 0 (store {| store := s; trace := tr |})
                 = Ok (firstn (Z.to_nat 10000) (rows s))) by reflexivity.
  destruct (not_found_iff env request params_id n body language_v language _ _
              Hid Hbody Hlang Hlangof Hall) as [Hnone Hsome].
  split.
  - intros Hno. apply Hnone. apply find_none_iff. intros t Hin.
    unfold is_tweet. apply Z.eqb_neq. auto.
  - intros (t & Hin & Ht). apply Hsome. intros Hf.
    rewrite find_none_iff in Hf. specialize (Hf t Hin).
    unfold is_tweet in Hf. apply Z.eqb_neq in Hf. contradiction.
Qed.

End OverLists.

(* ------------------------------------------------------------------ *)
(** ** Concrete runs *)
(* ------------------------------------------------------------------ *)

Section Examples.

Import ListDb Stub Demo.

(** C4 as stated fails: with a non-numeric id and a body that is not JSON
    the handler answers 500, not 400. *)
Lemma malformed_body_beats_invalid_id :
  parseInt "abc" = None
  /\ fst (POST (env1 (-1) created) malformed "abc" (init store1))
     = Ok (failure (Error "Unexpected end of JSON input"))
  /\ fst (POST (env1 (-1) created) malformed "abc" (init store1))
     <> Ok (json_error "Invalid tweet ID" 400).
Proof.
  repeat split. intros H; vm_compute in H; discriminate H.
Qed.

(** C7 as stated fails: decoding [[url, null]] throws on the second entry,
    the error is swallowed, and the pipeline goes on with the first URL, not
    as if the tweet had no media. *)
Lemma swallowed_error_keeps_earlier_urls :
  JSON_parse (ToString (media_urls tweet2)) = Ok mixed_doc
  /\ (exists e acc,
        media_forEach [JStr "https://pbs.example/a.png"; JNull] [] = (Throw e, acc))
  /\ decode_media_urls (media_urls tweet2) = [JStr "https://pbs.example/a.png"]
  /\ decode_media_urls (media_urls (with_media_urls JNull tweet2)) = []
  /\ publish (env1 (-1) created) 2 english JUndefined tweet2 (init store1)
     <> publish (env1 (-1) created) 2 english JUndefined
          (with_media_urls JNull tweet2) (init store1).
Proof.
  split; [reflexivity|]. split; [do 2 eexists; reflexivity|].
  split; [reflexivity|]. split; [reflexivity|].
  intros H. vm_compute in H. discriminate H.
Qed.


(** A publish run that succeeds: the store update follows the 201. *)
Lemma published_only_after_created_witness :
  exists req r,
    In (EvFetch PostCreate req (Ok r))
       (trace (snd (POST (env1 1 created) (body "english" (JBool true)) "1" (init store1))))
    /\ status r = 201.
Proof.
  destruct (published_only_after_created (env1 1 created)
              (body "english" (JBool true)) "1" store1)
    as (resp & w' & Hrun & Hafter & _).
  rewrite Hrun. simpl snd.
  assert (Hw : w' = snd (POST (env1 1 created) (body "english" (JBool true)) "1"
                           (init store1))) by (rewrite Hrun; reflexivity).
  destruct (Hafter (removelast (trace w')) 1 english (JStr "https://blog.example/?p=7") [])
    as (before' & req & r & Hb & H201).
  - rewrite Hw. vm_compute. reflexivity.
  - exists req, r. split; [|exact H201].
    assert (Hin : In (EvFetch PostCreate req (Ok r)) (removelast (trace w')))
      by (rewrite Hb; apply in_or_app; right; left; reflexivity).
    clear - Hin. revert Hin. generalize (trace w'). intros l.
    induction l as [|a [|b l] IH]; simpl; intros H; [contradiction|contradiction|].
    destruct H as [H|H]; [left; exact H | right; apply IH; exact H].
Defined.

(** The posts endpoint sits behind a gateway that answers 502 with an HTML
    page: the post-creation call is made, and the handler answers 500 from
    the top-level catch, not 502 with the page. *)
Lemma refused_post_outcomes_witness :
  status bad_gateway = 502
  /\ (exists req,
        In (EvFetch PostCreate req (Ok bad_gateway))
           (trace (snd (POST (env1 (-1) bad_gateway) (body "english" (JBool true)) "1"
                          (init Demo2.plain_store)))))
  /\ exists e',
       fst (POST (env1 (-1) bad_gateway) (body "english" (JBool true)) "1"
              (init Demo2.plain_store))
       = Ok (failure e')
       /\ res_status (failure e') = 500
       /\ forall details, failure e' <> wordpress_error bad_gateway details.
Proof.
  destruct (refused_post_outcomes (env1 (-1) bad_gateway)
              (body "english" (JBool true)) "1" Demo2.plain_store)
    as (resp & w' & Hrun & Hall).
  assert (Hin : exists req,
                  In (EvFetch PostCreate req (Ok bad_gateway))
                     (trace (snd (POST (env1 (-1) bad_gateway)
                                    (body "english" (JBool true)) "1"
                                    (init Demo2.plain_store)))))
    by (eexists; vm_compute; do 4 right; left; reflexivity).
  split; [reflexivity|]. split; [exact Hin|].
  destruct Hin as [req Hin]. rewrite Hrun in Hin |- *. simpl in Hin |- *.
  destruct (Hall req bad_gateway Hin) as (_ & Hbug & _); [intros E; discriminate E|].
  destruct (Hbug _ eq_refl) as [[e' ->] Hne].
  exists e'. split; [reflexivity|]. split; [reflexivity | exact Hne].
Defined.

Lemma unpublish_false_witness :
  exists resp evs o s',
    db_updatePublished 2 english false JNull (store (init store1)) = (o, s')
    /\ POST (env1 (-1) created) (body "english" (JBool false)) "2" (init store1)
       = (Ok resp, {| store := s'; trace := trace (init store1) ++ evs |})
    /\ forallb (fun e => negb (is_fetch e)) evs = true
    /\ filter is_update evs = [EvUpdatePublished 2 english false JNull]
    /\ match o with
       | Ok true => resp = success_only
       | _ => res_status resp = 500
       end.
Proof.
  apply (unpublish_false (env1 (-1) created) (body "english" (JBool false)) "2" 2
           (JObj [("language", JStr "english"); ("published", JBool false)])
           (JStr "english") english (rows store1) tweet2 (init store1));
    reflexivity.
Defined.

Lemma invalid_id_is_400_witness :
  POST (env1 (-1) created) (body "klingon" (JNum 3)) "abc" (init store1)
  = (Ok (json_error "Invalid tweet ID" 400), init store1).
Proof.
  apply (invalid_id_is_400 (env1 (-1) created) (body "klingon" (JNum 3)) "abc"
           (JObj [("language", JStr "klingon"); ("published", JNum 3)]) (init store1));
    reflexivity.
Defined.

(** Three media URLs, the second upload refused: the post that is sent has
    the first upload as its featured image, and its gallery shows the third
    upload and no other. *)
Lemma uploads_feed_the_post_witness :
  exists data content,
    In (EvFetch PostCreate
          (post_request "https://blog.example/" "admin" "secret" data) (Ok created))
       (trace (snd (POST (env1 1 created) (body "english" (JBool true)) "1"
                      (init store1))))
    /\ get_prop data "featured_media" = Ok (JNum 100)
    /\ get_prop data "content" = Ok (JStr content)
    /\ content
       = (("<p>Some *text*</p>" ++ nl) ++ nl
          ++ (gallery_open
              ++ inline_image 1 {| mediaId := JNum 102;
                                   url := JStr "https://blog.example/up/2" |}
              ++ "</div>") ++ nl
          ++ attribution tweet1)%string
    /\ includes "https://blog.example/up/2" content = true
    /\ includes "https://blog.example/up/0" content = false
    /\ includes "https://pbs.example/" content = false.
Proof.
  destruct (uploads_feed_the_post (RT := runtime) (env1 1 created) 1 english JUndefined tweet1
              (init store1) article_doc (JStr "Hello") (JStr "Some *text*") JUndefined
              ("<p>Some *text*</p>" ++ nl)%string "https://blog.example/" "admin" "secret"
              eq_refl ltac:(vm_compute; reflexivity) eq_refl eq_refl eq_refl eq_refl
              eq_refl eq_refl eq_refl eq_refl eq_refl eq_refl eq_refl eq_refl)
    as (uploads & _ & _ & _ & _ & _ & H3).
  destruct (H3 {| mediaId := JNum 100; url := JStr "https://blog.example/up/0" |}
               {| mediaId := JNum 102; url := JStr "https://blog.example/up/2" |})
    as [Hf Hc]; [vm_compute; reflexivity|].
  refine (ex_intro _ _ (ex_intro _ _ (conj _ (conj Hf (conj Hc _))))).
  - vm_compute. do 13 right. left. reflexivity.
  - split; [reflexivity|]. split; [|split]; vm_compute; reflexivity.
Defined.

Lemma delete_all_reports_count_witness :
  exists w', @DELETE unit Broken_Db (init tt) = (Ok (delete_failure down), w')
             /\ res_status (delete_failure down) = 500.
Proof.
  apply (proj2 delete_all_reports_count unit Broken_Db (init tt) down).
  left. reflexivity.
Defined.

Lemma media_decoding_is_soft_witness :
  decode_media_urls (JStr "not json") = []
  /\ decode_media_urls (media_urls tweet2) = collected [JStr "https://pbs.example/a.png"; JNull]
  /\ publish (env1 (-1) created) 1 english JUndefined
       (with_media_urls (JStr "not json") tweet1) (init store1)
     = publish (env1 (-1) created) 1 english JUndefined
         (with_media_urls JNull tweet1) (init store1).
Proof.
  destruct (media_decoding_is_soft (env1 (-1) created) (S := ListStore))
    as (Hthrow & _ & _ & Harr & Hsame & _).
  split; [|split].
  - apply (Hthrow (JStr "not json") (Error "Unexpected token in JSON")); reflexivity.
  - apply (Harr (media_urls tweet2)); reflexivity.
  - apply Hsame. reflexivity.
Defined.

Lemma uploader_never_throws_witness :
  fst (uploadImageToWordPress (env1 0 created) (JStr "https://pbs.example/a.png")
         "https://blog.example/" "admin" "secret" (init store1))
  = Ok None.
Proof.
  destruct (uploader_never_throws (env1 0 created) (JStr "https://pbs.example/a.png")
              "https://blog.example/" "admin" "secret" (init store1))
    as (r & evs & Hrun & _ & Hfail & _).
  rewrite Hrun. simpl fst. f_equal.
  assert (Hevs : evs = trace (snd (uploadImageToWordPress (env1 0 created)
                                     (JStr "https://pbs.example/a.png")
                                     "https://blog.example/" "admin" "secret"
                                     (init store1))))
    by (rewrite Hrun; reflexivity).
  eapply (Hfail MediaUpload).
  - rewrite Hevs. vm_compute. right. left. reflexivity.
  - left. intros H; discriminate H.
Defined.

Lemma lookup_stops_at_10000_witness :
  In Big.target (rows Big.store)
  /\ id Big.target = 7
  /\ POST (env1 (-1) created) (body "english" (JBool true)) "7"
       {| store := Big.store; trace := [] |}
     = (Ok (json_error "Tweet not found" 404),
        {| store := Big.store; trace := [] ++ [EvGetAll 10000 0] |}).
Proof.
  split; [|split; [reflexivity|]].
  - unfold Big.store. cbn [rows]. apply in_or_app. right. left. reflexivity.
  - apply (lookup_stops_at_10000 (env1 (-1) created) (body "english" (JBool true)) "7" 7
             (JObj [("language", JStr "english"); ("published", JBool true)])
             (JStr "english") english Big.store []); try reflexivity.
    intros t Hin.
    assert (Hf : find (is_tweet 7) (firstn (Z.to_nat 10000) (rows Big.store)) = None)
      by (vm_compute; reflexivity).
    pose proof (find_none _ _ Hf t Hin) as Ht. unfold is_tweet in Ht.
    apply Z.eqb_neq in Ht. exact Ht.
Defined.

(** A body without a [published] key is an unpublish. *)
Lemma unpublish_on_falsy_witness :
  exists suffix,
    POST (env1 (-1) created)
      {| request_json := Ok (JObj [("language", JStr "english")]) |} "2" (init store1)
    = (Ok success_only,
       {| store := snd (updatePublished 2 english false JNull store1);
          trace := [EvGetAll 10000 0; EvUpdatePublished 2 english false JNull] ++ suffix |}).
Proof.
  destruct (unpublish_on_falsy (env1 (-1) created) (S := ListStore))
    as (_ & _ & _ & _ & Habsent & Hrun).
  destruct (Habsent [("language", JStr "english")]) as (v & Hv & Tv).
  { simpl. intros [H|[]]. discriminate H. }
  destruct (Hrun {| request_json := Ok (JObj [("language", JStr "english")]) |} "2" 2
              (JObj [("language", JStr "english")]) (JStr "english") english v
              (rows store1) tweet2 (init store1)
              eq_refl eq_refl eq_refl eq_refl Hv Tv eq_refl eq_refl)
    as (resp & suffix & o & s' & Hdb & Hpost & _ & Hresp).
  exists suffix. rewrite Hpost.
  assert (Ho : o = Ok true /\ s' = snd (updatePublished 2 english false JNull store1))
    by (vm_compute in Hdb; inversion Hdb; split; reflexivity).
  destruct Ho as [Ho ->]. rewrite (Hresp Ho). reflexivity.
Defined.

End Examples.

(* ------------------------------------------------------------------ *)
(** ** Further properties of the uploader and the upload loop *)
(* ------------------------------------------------------------------ *)

Section UploaderRequests.

Context {RT : Runtime} {S : Type} {D : Db S}.
Variable env : Env.

Lemma content_type_not_empty (r : Response) : is_empty (content_type_or_jpeg r) = false.
Proof.
  unfold content_type_or_jpeg. destruct (content_type r) as [c|]; [|reflexivity].
  destruct c; reflexivity.
Qed.

Lemma upload_run_requests imageUrl wpUrl wpUsername wpPassword (w : World S) :
  exists r evs,
    uploadImageToWordPress env imageUrl wpUrl wpUsername wpPassword w
      = (Ok r, {| store := store w; trace := trace w ++ evs |})
    /\ Forall (sent_by_uploader imageUrl wpUrl wpUsername wpPassword) evs
    /\ (List.length (filter is_media_upload evs) <= 1)%nat
    /\ (forall req out,
          In (EvFetch ImageDownload req out) evs ->
          fetch_failed ImageDownload out ->
          filter is_media_upload evs = []).
Proof.
  unfold uploadImageToWordPress. unfold_handler. simpl.
  repeat (case_split; simpl; try discriminate).
  all: do 2 eexists; split; [rewrite <- ?app_assoc; simpl; reflexivity|].
  all: bool_hyps.
  all: split; [|split; [simpl; lia|]].
  all: try (intros req out Hin Hfail; simpl in Hin;
            repeat (destruct Hin as [Hin|Hin]; [inversion Hin; subst|]);
            try contradiction; simpl in Hfail; try congruence; reflexivity).
  all: repeat constructor; simpl; auto.
  all: repeat split; try reflexivity.
  all: do 3 eexists; split; [reflexivity|]; split;
    [| apply content_type_not_empty].
  all: first [ assumption
             | apply includes_later, includes_later, includes_here ].
Qed.


(** Everything known about one run of the uploader. *)
Lemma upload_run_full imageUrl wpUrl wpUsername wpPassword (w : World S) :
  exists r evs,
    uploadImageToWordPress env imageUrl wpUrl wpUsername wpPassword w
      = (Ok r, {| store := store w; trace := trace w ++ evs |})
    /\ forallb upload_event evs = true
    /\ download_inputs evs = [imageUrl]
    /\ match r with
       | Some img => uploaded_ok evs img
       | None => exists before msg, evs = before ++ [EvConsole ConsoleError msg]
       end
    /\ Forall (sent_by_uploader imageUrl wpUrl wpUsername wpPassword) evs
    /\ (List.length (filter is_media_upload evs) <= 1)%nat
    /\ (forall req out,
          In (EvFetch ImageDownload req out) evs ->
          fetch_failed ImageDownload out ->
          filter is_media_upload evs = []).
Proof.
  destruct (upload_run env imageUrl wpUrl wpUsername wpPassword w)
    as (r & evs & Hrun & Hu & Hd & Hr).
  destruct (upload_run_requests imageUrl wpUrl wpUsername wpPassword w)
    as (r' & evs' & Hrun' & Hsent & Hcount & Hfail).
  rewrite Hrun in Hrun'. inversion Hrun' as [[Hr' He]].
  apply app_inv_head in He. subst r' evs'.
  exists r, evs. repeat split; assumption.
Qed.


Lemma filter_length_app {A} (f : A -> bool) (l1 l2 : list A) :
  List.length (filter f (l1 ++ l2))
  = (List.length (filter f l1) + List.length (filter f l2))%nat.
Proof. now rewrite filter_app, length_app. Qed.

Lemma download_count evs :
  List.length (filter is_download evs) = List.length (download_inputs evs).
Proof.
  induction evs as [|e evs IH]; simpl; [reflexivity|].
  destruct e as [[] ? ?| | | | | |]; simpl; now rewrite ?IH.
Qed.

(** Everything known about the attempts over a list of URLs. *)
Lemma attempts_full mediaUrls wpUrl wpUsername wpPassword (w : World S) :
  exists evs,
    snd (attempts env mediaUrls wpUrl wpUsername wpPassword w)
      = {| store := store w; trace := trace w ++ evs |}
    /\ forallb upload_event evs = true
    /\ download_inputs evs = mediaUrls
    /\ Forall (fun e => exists imageUrl,
                  In imageUrl mediaUrls
                  /\ sent_by_uploader imageUrl wpUrl wpUsername wpPassword e) evs
    /\ (List.length (successes (fst (attempts env mediaUrls wpUrl wpUsername wpPassword w)))
        <= List.length (filter is_media_upload evs))%nat
    /\ (List.length (filter is_media_upload evs) <= List.length mediaUrls)%nat.
Proof.
  revert w. induction mediaUrls as [|imageUrl rest IH]; intros w; simpl.
  - exists []. repeat split; try constructor. rewrite app_nil_r. now destruct w.
  - destruct (upload_run_full imageUrl wpUrl wpUsername wpPassword w)
      as (r & evs1 & -> & Hu1 & Hd1 & Hr & Hsent1 & Hcount1 & _).
    specialize (IH {| store := store w; trace := trace w ++ evs1 |}).
    destruct IH as (evs2 & Hw & Hu2 & Hd2 & Hsent2 & Hsucc & Hcount2).
    destruct (attempts env rest wpUrl wpUsername wpPassword _) as [rs w2].
    simpl in *. subst w2. exists (evs1 ++ evs2). repeat split.
    + now rewrite app_assoc.
    + rewrite forallb_app, Hu1, Hu2. reflexivity.
    + rewrite download_inputs_app, Hd1, Hd2. reflexivity.
    + apply Forall_app. split.
      * eapply Forall_impl; [|exact Hsent1]. intros e He. exists imageUrl. auto.
      * eapply Forall_impl; [|exact Hsent2]. intros e (u & Hin & He).
        exists u. auto.
    + rewrite filter_length_app. destruct r as [img|]; simpl; [|lia].
      destruct Hr as (dreq & dl & ureq & up & msg & -> & _). simpl. lia.
    + rewrite filter_length_app. lia.
Qed.

(** X2. The upload loop returns for every list of URLs and never touches
    the store.  It downloads each URL once, in input order, sends at most
    one upload per URL, keeps no more images than uploads it sent, and every
    request it sends is one the uploader would send for one of the URLs. *)
Theorem upload_loop_bounds mediaUrls wpUrl wpUsername wpPassword (w : World S) :
  exists images evs,
    upload_all env mediaUrls wpUrl wpUsername wpPassword [] w
      = (Ok images, {| store := store w; trace := trace w ++ evs |})
    /\ download_inputs evs = mediaUrls
    /\ List.length (filter is_download evs) = List.length mediaUrls
    /\ (List.length images <= List.length (filter is_media_upload evs))%nat
    /\ (List.length (filter is_media_upload evs) <= List.length mediaUrls)%nat
    /\ Forall (fun e => exists imageUrl,
                  In imageUrl mediaUrls
                  /\ sent_by_uploader imageUrl wpUrl wpUsername wpPassword e) evs.
Proof.
  destruct (attempts_full mediaUrls wpUrl wpUsername wpPassword w)
    as (evs & Hw & _ & Hd & Hsent & Hsucc & Hcount).
  exists (successes (fst (attempts env mediaUrls wpUrl wpUsername wpPassword w))), evs.
  split; [|repeat split; try assumption].
  - rewrite upload_all_attempts, Hw. reflexivity.
  - now rewrite download_count, Hd.
Qed.

End UploaderRequests.

(* ------------------------------------------------------------------ *)
(** ** Further properties of the string helpers *)
(* ------------------------------------------------------------------ *)

From Stdlib Require DecimalPos.

Section Strings.

Lemma strip_added_slash (s : string) : strip_trailing_slash (s ++ "/") = s.
Proof.
  induction s as [|c s IH]; simpl; [reflexivity|].
  replace (is_empty (s ++ "/")) with false by (now destruct s).
  rewrite andb_false_r, IH. reflexivity.
Qed.

Lemma strip_without_slash (s : string) :
  ends_with_slash s = false -> strip_trailing_slash s = s.
Proof.
  induction s as [|c s IH]; simpl; [reflexivity|].
  destruct s as [|c' s']; simpl in *.
  - intros ->. reflexivity.
  - intros H. rewrite andb_false_r. now rewrite (IH H).
Qed.
















(** X4. One trailing slash of the site URL is dropped, and only one: a site
    configured with or without it reaches the same media and posts
    endpoints, and the uploader behaves the same. *)
Theorem trailing_slash_is_dropped {RT : Runtime} {S : Type} {D : Db S}
    (site : string) :
  strip_trailing_slash (site ++ "/") = site
  /\ (ends_with_slash site = false ->
      strip_trailing_slash site = site
      /\ media_endpoint (site ++ "/") = media_endpoint site
      /\ (forall wpUsername wpPassword data,
            post_request (site ++ "/") wpUsername wpPassword data
            = post_request site wpUsername wpPassword data)
      /\ (forall env imageUrl wpUsername wpPassword (w : World S),
            uploadImageToWordPress env imageUrl (site ++ "/") wpUsername wpPassword w
            = uploadImageToWordPress env imageUrl site wpUsername wpPassword w)).
Proof.
  split; [apply strip_added_slash|]. intros Hno.
  pose proof (strip_without_slash site Hno) as Hsame.
  pose proof (strip_added_slash site) as Hadd.
  repeat split.
  - exact Hsame.
  - unfold media_endpoint. now rewrite Hadd, Hsame.
  - intros. unfold post_request. now rewrite Hadd, Hsame.
  - intros. unfold uploadImageToWordPress. now rewrite Hadd, Hsame.
Qed.

End Strings.

(* ------------------------------------------------------------------ *)
(** ** The name of the uploaded file *)
(* ------------------------------------------------------------------ *)

Section FileNames.

Context {RT : Runtime} {S : Type} {D : Db S}.
Variable env : Env.

Lemma no_slash_app (a b : string) :
  no_slash (a ++ b) = no_slash a && no_slash b.
Proof.
  induction a as [|c a IH]; [reflexivity|].
  rewrite append_cons. cbn [no_slash]. rewrite IH. now rewrite andb_assoc.
Qed.

Lemma no_slash_last_segment (s cur : string) :
  no_slash cur = true -> no_slash (last_segment "/" s cur) = true.
Proof.
  revert cur. induction s as [|c s IH]; intros cur Hcur; cbn [last_segment];
    [exact Hcur|].
  destruct (Ascii.eqb c "/") eqn:E; apply IH; [reflexivity|].
  rewrite no_slash_app, Hcur. cbn [no_slash]. now rewrite E.
Qed.

Lemma no_slash_first_segment (sep : ascii) (s : string) :
  no_slash s = true -> no_slash (first_segment sep s) = true.
Proof.
  induction s as [|c s IH]; cbn [first_segment no_slash]; [reflexivity|].
  intros H. apply andb_true_iff in H. destruct H as [Hc Hs].
  destruct (Ascii.eqb c sep); [reflexivity|].
  cbn [no_slash]. now rewrite Hc, (IH Hs).
Qed.

Lemma no_slash_uint (d : Decimal.uint) : no_slash (NilEmpty.string_of_uint d) = true.
Proof. induction d; cbn [NilEmpty.string_of_uint no_slash]; auto. Qed.

Lemma no_slash_string_of_Z (n : Z) : no_slash (string_of_Z n) = true.
Proof.
  unfold string_of_Z.
  assert (H : forall d, no_slash (NilZero.string_of_uint d) = true).
  { intros d. destruct d; try reflexivity; apply (no_slash_uint (_ d)). }
  destruct (Z.to_int n) as [d|d]; cbn [NilZero.string_of_int no_slash];
    [apply H | rewrite H; reflexivity].
Qed.

Lemma no_slash_extension (contentType : string) :
  no_slash (extension_of contentType) = true.
Proof.
  unfold extension_of.
  destruct (includes "png" contentType); [reflexivity|].
  destruct (includes "gif" contentType); [reflexivity|].
  destruct (includes "webp" contentType); reflexivity.
Qed.

Lemma no_slash_filename_of_path (urlPath : string) :
  no_slash (filename_of_path urlPath) = true.
Proof.
  unfold filename_of_path.
  destruct (is_empty _); [reflexivity|].
  apply no_slash_first_segment, no_slash_last_segment. reflexivity.
Qed.

(** X17. The file name given to an upload never contains a slash, whatever
    the image URL: it is the last segment of the URL's path, or a name made
    of the clock and an extension. *)
Theorem uploaded_name_has_no_slash imageUrl wpUrl wpUsername wpPassword (w : World S) :
  exists r evs,
    uploadImageToWordPress env imageUrl wpUrl wpUsername wpPassword w
      = (Ok r, {| store := store w; trace := trace w ++ evs |})
    /\ forall e filename,
         In e evs -> uploaded_name e = Some filename -> no_slash filename = true.
Proof.
  unfold uploadImageToWordPress. unfold_handler. simpl.
  repeat (case_split; simpl; try discriminate).
  all: do 2 eexists; split; [rewrite <- ?app_assoc; simpl; reflexivity|].
  all: intros ev filename Hin Hname; simpl in Hin.
  all: repeat (destruct Hin as [Hin | Hin]; [subst ev; simpl in Hname|]);
    try contradiction; try discriminate Hname.
  all: inversion Hname; subst filename.
  all: first [ apply no_slash_filename_of_path
             | rewrite !no_slash_app, no_slash_string_of_Z, no_slash_extension;
               reflexivity ].
Qed.

End FileNames.

(* ------------------------------------------------------------------ *)
(** ** Further properties of POST: the validation sequence *)
(* ------------------------------------------------------------------ *)

Section Validation.

Context {RT : Runtime} {S : Type} {D : Db S}.
Variable env : Env.

Variables (request : NextRequest) (params_id : string) (n : Z)
          (body language_v : JsVal) (w : World S).

Hypothesis Hid : parseInt params_id = Some n.
Hypothesis Hbody : request_json request = Ok body.
Hypothesis Hlang : get_prop body "language" = Ok language_v.

(** X5. With a valid id and a decoded body, a [language] other than the two
    strings is answered 400 before the store is consulted: whatever
    [published] holds, nothing is read, fetched or updated. *)
Theorem invalid_language_is_400 :
  language_of language_v = None ->
  POST env request params_id w
  = (Ok (json_error ("Invalid language. Must be " ++ dq ++ "english" ++ dq
                     ++ " or " ++ dq ++ "french" ++ dq)%string 400), w).
Proof.
  intros Hno.
  destruct (get_prop_total _ _ "status" _ Hlang) as [st Hst].
  destruct (get_prop_total _ _ "published" _ Hlang) as [pb Hpb].
  unfold POST. unfold_handler. simpl.
  rewrite Hid, Hbody, Hlang, Hpb, Hst, Hno. reflexivity.
Qed.

Variables (language : Language) (published status_v : JsVal)
          (allTweets : list Tweet) (tweet : Tweet).

Hypothesis Hlangof : language_of language_v = Some language.
Hypothesis Hpub : get_prop body "published" = Ok published.
Hypothesis Hstatus : get_prop body "status" = Ok status_v.
Hypothesis Htruthy : truthy published = true.
Hypothesis Hall : db_getAll 10000 0 (store w) = Ok allTweets.
Hypothesis Hfind : find (is_tweet n) allTweets = Some tweet.

Let articleContent : JsVal :=
  match language with
  | english => article_english tweet
  | french => article_french tweet
  end.

Let found : World S := {| store := store w; trace := trace w ++ [EvGetAll 10000 0] |}.

(** A publish request for a tweet the lookup finds runs the publish path
    under the top-level catch. *)
Lemma POST_runs_publish :
  POST env request params_id w
  = try_catch (publish env n language status_v tweet)
      (fun error =>
         console_error ("Error publishing article: " ++ message error) ;;
         ret (failure error)) found.
Proof.
  unfold POST. unfold_handler. simpl.
  rewrite Hid, Hbody, Hlang, Hpub, Hstatus, Hlangof. simpl.
  rewrite Hall, Hfind, Htruthy. reflexivity.
Qed.

(** X6. When the tweet has no article in the requested language, a publish
    request is answered 400 with a message naming that language; the only
    call made is the row fetch. *)
Theorem missing_article_is_400 :
  truthy articleContent = false ->
  POST env request params_id w
  = (Ok (json_error ("Article not generated for " ++ language_name language
                     ++ " language")%string 400), found).
Proof.
  intros Hno. rewrite POST_runs_publish.
  unfold publish. fold articleContent. rewrite Hno. reflexivity.
Qed.

(** X7. An article that decodes to a value without a truthy [title], or with
    neither a truthy [article] nor a truthy [content], is answered 400
    "Invalid article format: missing title or content"; an article that
    decodes to [null] falls to the top-level catch and is answered 500.  In
    both cases only the row fetch was made. *)
Theorem incomplete_article_is_400 articleData :
  truthy articleContent = true ->
  match articleContent with
  | JStr text => JSON_parse text
  | _ => Ok articleContent
  end = Ok articleData ->
  (forall title,
     get_prop articleData "title" = Ok title ->
     truthy title = false
     \/ (truthy (get_prop_opt articleData "article") = false
         /\ truthy (get_prop_opt articleData "content") = false) ->
     POST env request params_id w
     = (Ok (json_error "Invalid article format: missing title or content" 400), found))
  /\ (forall e,
        get_prop articleData "title" = Throw e ->
        POST env request params_id w
        = (Ok (failure e),
           {| store := store w;
              trace := trace found
                       ++ [EvConsole ConsoleError
                             ("Error publishing article: " ++ message e)] |})).
Proof.
  intros Hyes Hdecode. split.
  - intros title Htitle Hmissing. rewrite POST_runs_publish.
    unfold publish. fold articleContent. rewrite Hyes. simpl. rewrite Hdecode.
    unfold_handler. simpl. rewrite Htitle.
    destruct (get_prop_total _ _ "article" _ Htitle) as [a Ha].
    destruct (get_prop_total _ _ "content" _ Htitle) as [c Hc].
    rewrite (get_prop_opt_ok _ _ _ Ha), (get_prop_opt_ok _ _ _ Hc) in Hmissing.
    destruct (truthy title) eqn:Tt; simpl; [|reflexivity].
    destruct Hmissing as [Hm | [Hma Hmc]]; [discriminate|].
    rewrite Ha, Hma. simpl. rewrite Hc, Hmc. reflexivity.
  - intros e Htitle. rewrite POST_runs_publish.
    unfold publish. fold articleContent. rewrite Hyes. simpl. rewrite Hdecode.
    unfold_handler. simpl. rewrite Htitle. reflexivity.
Qed.

(** X8. When any of the three credential settings of the language is unset
    or empty, a publish request with a complete article is answered 500
    "WordPress credentials ... not configured"; all three settings were
    read, and nothing was fetched or updated. *)
Theorem missing_credentials_is_500 articleData title wpUrl wpUsername wpPassword :
  truthy articleContent = true ->
  match articleContent with
  | JStr text => JSON_parse text
  | _ => Ok articleContent
  end = Ok articleData ->
  get_prop articleData "title" = Ok title ->
  truthy title = true ->
  truthy (get_prop_opt articleData "article")
  || truthy (get_prop_opt articleData "content") = true ->
  db_settings_get (settings_key language "Url") (store w) = Ok wpUrl ->
  db_settings_get (settings_key language "Username") (store w) = Ok wpUsername ->
  db_settings_get (settings_key language "Password") (store w) = Ok wpPassword ->
  configured wpUrl && configured wpUsername && configured wpPassword = false ->
  POST env request params_id w
  = (Ok (json_error ("WordPress credentials for " ++ language_name language
                     ++ " not configured. Please set them in Settings.")%string 500),
     {| store := store w;
        trace := trace w ++ preamble language [] |}).
Proof.
  intros Hyes Hdecode Htitle Ttitle Tbody Hu Hn Hp Hmissing.
  rewrite POST_runs_publish.
  unfold publish. fold articleContent. rewrite Hyes. simpl. rewrite Hdecode.
  unfold_handler. simpl. rewrite Htitle, Ttitle. simpl.
  destruct (get_prop_total _ _ "article" _ Htitle) as [a Ha].
  destruct (get_prop_total _ _ "content" _ Htitle) as [c Hc].
  rewrite (get_prop_opt_ok _ _ _ Ha), (get_prop_opt_ok _ _ _ Hc) in Tbody.
  rewrite Ha.
  destruct (truthy a) eqn:Ta; simpl; [|rewrite Hc; simpl in Tbody; rewrite Tbody; simpl].
  all: rewrite Hu; simpl; rewrite Hn; simpl; rewrite Hp; simpl.
  all: replace (negb (configured wpUrl) || negb (configured wpUsername)
                || negb (configured wpPassword)) with true
         by (destruct (configured wpUrl), (configured wpUsername),
               (configured wpPassword); simpl in *; congruence).
  all: unfold preamble; rewrite <- !app_assoc; reflexivity.
Qed.

End Validation.

(* ------------------------------------------------------------------ *)
(** ** Further properties of POST: outcomes and answers *)
(* ------------------------------------------------------------------ *)

Section Outcomes.

Context {RT : Runtime} {S : Type} {D : Db S}.
Variable env : Env.

Ltac run_loop' :=
  match goal with
  | |- context [upload_all ?e ?urls ?a ?b ?c ?acc ?w0] =>
      rewrite (upload_all_attempts e urls a b c acc w0);
      let evs := fresh "uploads" in
      let Hw := fresh "Hw" in
      let Hq := fresh "Hq" in
      destruct (attempts_run e urls a b c w0) as (evs & Hw & Hq & _ & _ & _);
      rewrite Hw; simpl
  end.

Ltac run_all' := repeat first [ run_loop' | case_split; simpl; try discriminate ].

Lemma POST_outcome request params_id (w : World S) :
  exists resp evs s',
    POST env request params_id w
      = (Ok resp, {| store := s'; trace := trace w ++ evs |})
    /\ run_outcome request params_id (store w) s' evs resp.
Proof.
  unfold POST, publish, after_post. unfold_handler. simpl.
  run_all'.
  all: answers.
  all: rewrite <- ?app_assoc; simpl.
  all: first [ do 3 eexists; split; [reflexivity|]
             | eexists; exists [], (store w);
               split; [rewrite app_nil_r; destruct w; reflexivity|] ].
  all: unfold run_outcome.
  all: try solve [left; split; [reflexivity|]; split;
                  [simpl; rewrite ?forallb_app; simpl;
                   rewrite ?(upload_event_quiet) by assumption; reflexivity
                  | simpl; tauto]].
  all: bool_hyps.
  all: try solve [right; left; do 4 eexists;
                  split; [reflexivity|]; split; [reflexivity|];
                  split; [eassumption|]; simpl; tauto].
  all: try solve [
    right; right; left;
    match goal with H : language_of _ = Some ?L |- _ => exists L end;
    do 4 eexists;
    split; [reflexivity|]; split; [assumption|];
    split; [reflexivity|]; split; [reflexivity|];
    repeat match goal with
           | H : (status ?r =? 201) = _ |- context [status ?r =? 201] => rewrite H
           end;
    first [ reflexivity
          | simpl; tauto
          | unfold creation_lost; eexists; split; [reflexivity|]; eauto
          | exfalso; eapply reread_cannot_answer; eassumption ] ].
  all: try solve [
    exfalso;
    match goal with
    | H1 : get_prop ?v _ = Ok _, H2 : get_prop ?v ?k = Throw _ |- _ =>
        destruct (get_prop_total _ _ k _ H1) as [y Hy]; congruence
    end ].
  all: repeat match goal with
             | H : ?b = true |- _ => is_var b; subst b
             | H : ?b = false |- _ => is_var b; subst b
             end.
  all: try solve [
    right; right; right;
    match goal with H : parseInt _ = Some ?N |- _ => exists N end;
    match goal with H : language_of _ = Some ?L |- _ => exists L end;
    do 6 eexists;
    split; [reflexivity|]; split; [assumption|];
    split; [reflexivity|];
    split; [apply Z.eqb_eq; assumption|];
    split; [eassumption|];
    split; [unfold asks_for; split; [assumption|]; do 2 eexists;
            repeat split; eassumption|];
    unfold creation_recorded, published_response; eexists;
    split; [eassumption|]; split; [eassumption|];
    repeat match goal with
           | H : get_prop _ _ = Ok _ |- _ => rewrite (get_prop_opt_ok _ _ _ H)
           end;
    first [ reflexivity | split; reflexivity ] ].
Qed.

Lemma console_no_fetch evs :
  forallb is_console evs = true -> forallb (fun e => negb (is_fetch e)) evs = true.
Proof.
  induction evs as [|e evs IH]; simpl; [reflexivity|].
  intros H. apply andb_true_iff in H. destruct H as [He Hr].
  rewrite (IH Hr), andb_true_r. destruct e; cbv in He |- *; congruence.
Qed.

(** In a trace that reaches the post-creation call, that call is the only
    event of its kind. *)
Lemma post_call_identified language uploads call rest req out :
  forallb upload_event uploads = true ->
  forallb (fun e => negb (is_post_create e)) rest = true ->
  In (EvFetch PostCreate req out) (preamble language (uploads ++ call :: rest)) ->
  call = EvFetch PostCreate req out.
Proof.
  intros Hu Hrest Hin. unfold preamble in Hin.
  destruct Hin as [Hin | [Hin | [Hin | [Hin | Hin]]]]; try discriminate.
  apply in_app_or in Hin. destruct Hin as [Hin | [Hin | Hin]].
  - pose proof (forallb_In _ _ _ Hu Hin) as Hx. discriminate Hx.
  - exact Hin.
  - pose proof (forallb_In _ _ _ Hrest Hin) as Hx. discriminate Hx.
Qed.

Lemma console_not_post_create evs :
  forallb is_console evs = true ->
  forallb (fun e => negb (is_post_create e)) evs = true.
Proof.
  induction evs as [|e evs IH]; simpl; [reflexivity|].
  intros H. apply andb_true_iff in H. destruct H as [He Hr].
  rewrite (IH Hr), andb_true_r. destruct e; cbv in He |- *; congruence.
Qed.

(** X9. When the post-creation call is answered 201 with a document that
    has a [link], the store update is called for the requested tweet and
    language with [published = true] and that link; the answer is then
    [{success, post_id, link, message}] with the same link when the update
    reports success, and 500 when it reports failure or throws, although
    the post exists. *)
Theorem created_post_is_recorded request params_id (s : S) :
  exists resp w',
    POST env request params_id (init s) = (Ok resp, w')
    /\ forall req r publishData link,
         In (EvFetch PostCreate req (Ok r)) (trace w') ->
         status r = 201 ->
         body_json r = Ok publishData ->
         get_prop publishData "link" = Ok link ->
         exists n language o,
           asks_for request params_id n language
           /\ In (EvUpdatePublished n language true link) (trace w')
           /\ db_updatePublished n language true link s = (o, store w')
           /\ (o = Ok true ->
               resp = published_response publishData language
               /\ get_prop (res_body resp) "link" = Ok link)
           /\ (o = Ok false -> resp = json_error "Failed to update tweet status" 500)
           /\ (forall e, o = Throw e -> resp = failure e).
Proof.
  destruct (POST_outcome request params_id (init s)) as (resp & evs & s' & Hrun & Hcase).
  exists resp, {| store := s'; trace := evs |}. split; [exact Hrun|]. simpl.
  intros rq r pd link Hin H201 Hpd Hlink.
  destruct Hcase as [(-> & Hq & _) | [(n0 & l0 & o & suffix & -> & Hc & Hdb & _)
    | [(l0 & uploads & req & out & suffix & -> & Hu & Hc & -> & Hout)
      | (n0 & l0 & uploads & req & r0 & link0 & o & suffix & -> & Hu & Hc & Hst & Hdb
         & Hasks & Hrec)]]].
  - pose proof (forallb_In _ _ _ Hq Hin) as Hx. discriminate Hx.
  - destruct Hin as [Hin | [Hin | Hin]]; try discriminate.
    pose proof (forallb_In _ _ _ Hc Hin) as Hx. discriminate Hx.
  - exfalso.
    pose proof (post_call_identified _ _ _ _ _ _ Hu (console_not_post_create _ Hc) Hin)
      as E.
    inversion E; subst out. apply Z.eqb_eq in H201. rewrite H201 in Hout.
    destruct Hout as (e & _ & [He | (pd' & Hpd' & He)]); congruence.
  - assert (Hrest : forallb (fun e => negb (is_post_create e))
                      (EvUpdatePublished n0 l0 true link0 :: suffix) = true)
      by (simpl; now apply console_not_post_create).
    pose proof (post_call_identified _ _ _ _ _ _ Hu Hrest Hin) as E.
    inversion E; subst rq r0.
    destruct Hrec as (pd' & Hpd' & Hlink' & Hresp).
    assert (pd' = pd) by congruence. subst pd'.
    assert (link0 = link) by congruence. subst link0.
    exists n0, l0, o. split; [exact Hasks|]. split.
    { unfold preamble. simpl. do 4 right. apply in_or_app. right. right. left.
      reflexivity. }
    split; [exact Hdb|]. split; [|split].
    + intros ->. destruct Hresp as [-> _]. split; [reflexivity|].
      unfold published_response. simpl.
      now rewrite (get_prop_opt_ok _ _ _ Hlink).
    + intros ->. tauto.
    + intros e ->. exact Hresp.
Qed.

(** X10. Nothing is undone: in every run the post-creation call is the
    last fetch.  When it is answered 201 but its body is not JSON or is
    [null], the handler answers 500, the store is left as it was and no
    store update is made, although the post exists. *)
Theorem created_post_can_be_lost request params_id (s : S) :
  exists resp w',
    POST env request params_id (init s) = (Ok resp, w')
    /\ forall req out,
         In (EvFetch PostCreate req out) (trace w') ->
         (exists before after,
            trace w' = before ++ EvFetch PostCreate req out :: after
            /\ forallb (fun e => negb (is_fetch e)) after = true)
         /\ (forall r,
               out = Ok r -> status r = 201 ->
               (forall publishData,
                  body_json r = Ok publishData ->
                  exists e, get_prop publishData "link" = Throw e) ->
               res_status resp = 500
               /\ store w' = s
               /\ forallb (fun e => negb (is_update e)) (trace w') = true).
Proof.
  destruct (POST_outcome request params_id (init s)) as (resp & evs & s' & Hrun & Hcase).
  exists resp, {| store := s'; trace := evs |}. split; [exact Hrun|]. simpl.
  intros rq out' Hin.
  destruct Hcase as [(-> & Hq & _) | [(n0 & l0 & o & suffix & -> & Hc & Hdb & _)
    | [(l0 & uploads & req & out & suffix & -> & Hu & Hc & -> & Hout)
      | (n0 & l0 & uploads & req & r0 & link0 & o & suffix & -> & Hu & Hc & Hst & Hdb
         & Hasks & Hrec)]]].
  - pose proof (forallb_In _ _ _ Hq Hin) as Hx. discriminate Hx.
  - destruct Hin as [Hin | [Hin | Hin]]; try discriminate.
    pose proof (forallb_In _ _ _ Hc Hin) as Hx. discriminate Hx.
  - pose proof (post_call_identified _ _ _ _ _ _ Hu (console_not_post_create _ Hc) Hin)
      as E.
    inversion E; subst rq out'. split.
    + exists (preamble l0 uploads), suffix. split; [reflexivity|].
      now apply console_no_fetch.
    + intros r -> H201 Hbad. apply Z.eqb_eq in H201. rewrite H201 in Hout.
      destruct Hout as (e & -> & _). repeat split.
      unfold preamble. simpl. rewrite forallb_app. simpl.
      now rewrite (upload_event_no_update _ Hu), (console_no_update _ Hc).
  - assert (Hrest : forallb (fun e => negb (is_post_create e))
                      (EvUpdatePublished n0 l0 true link0 :: suffix) = true)
      by (simpl; now apply console_not_post_create).
    pose proof (post_call_identified _ _ _ _ _ _ Hu Hrest Hin) as E.
    inversion E; subst rq out'. split.
    + exists (preamble l0 uploads), (EvUpdatePublished n0 l0 true link0 :: suffix).
      split; [reflexivity|]. simpl. now apply console_no_fetch.
    + intros r E' _ Hbad. inversion E'; subst r. exfalso.
      destruct Hrec as (pd & Hpd & Hlink & _).
      destruct (Hbad pd Hpd) as [e He]. congruence.
Qed.

(** X11. When the post-creation call itself fails (network error, timeout),
    the handler answers 500 with the error's message, leaves the store as
    it was and makes no store update. *)
Theorem failed_post_call_is_500 request params_id (s : S) :
  exists resp w',
    POST env request params_id (init s) = (Ok resp, w')
    /\ forall req e,
         In (EvFetch PostCreate req (Throw e)) (trace w') ->
         resp = failure e
         /\ store w' = s
         /\ forallb (fun ev => negb (is_update ev)) (trace w') = true.
Proof.
  destruct (POST_outcome request params_id (init s)) as (resp & evs & s' & Hrun & Hcase).
  exists resp, {| store := s'; trace := evs |}. split; [exact Hrun|]. simpl.
  intros rq e Hin.
  destruct Hcase as [(-> & Hq & _) | [(n0 & l0 & o & suffix & -> & Hc & Hdb & _)
    | [(l0 & uploads & req & out & suffix & -> & Hu & Hc & -> & Hout)
      | (n0 & l0 & uploads & req & r0 & link0 & o & suffix & -> & Hu & Hc & Hst & Hdb
         & Hasks & Hrec)]]].
  - pose proof (forallb_In _ _ _ Hq Hin) as Hx. discriminate Hx.
  - destruct Hin as [Hin | [Hin | Hin]]; try discriminate.
    pose proof (forallb_In _ _ _ Hc Hin) as Hx. discriminate Hx.
  - pose proof (post_call_identified _ _ _ _ _ _ Hu (console_not_post_create _ Hc) Hin)
      as E.
    inversion E; subst rq out. repeat split; [exact Hout|].
    unfold preamble. simpl. rewrite forallb_app. simpl.
    now rewrite (upload_event_no_update _ Hu), (console_no_update _ Hc).
  - assert (Hrest : forallb (fun e => negb (is_post_create e))
                      (EvUpdatePublished n0 l0 true link0 :: suffix) = true)
      by (simpl; now apply console_not_post_create).
    pose proof (post_call_identified _ _ _ _ _ _ Hu Hrest Hin) as E.
    discriminate E.
Qed.

(** X12. The handler always answers: no exception leaves it.  Its status is
    200, 400, 404 or 500, or else the status of a post-creation answer that
    was not 201. *)
Theorem POST_always_answers request params_id (w : World S) :
  exists resp w',
    POST env request params_id w = (Ok resp, w')
    /\ (In (res_status resp) [200; 400; 404; 500]
        \/ exists req r before after,
             trace w' = before ++ EvFetch PostCreate req (Ok r) :: after
             /\ status r <> 201
             /\ res_status resp = status r).
Proof.
  destruct (POST_outcome request params_id w) as (resp & evs & s' & Hrun & Hcase).
  exists resp, {| store := s'; trace := trace w ++ evs |}. split; [exact Hrun|].
  simpl.
  destruct Hcase as [(_ & _ & Hst) | [(n0 & l0 & o & suffix & _ & _ & _ & Hst)
    | [(l0 & uploads & req & out & suffix & -> & Hu & Hc & _ & Hout)
      | (n0 & l0 & uploads & req & r0 & link0 & o & suffix & -> & Hu & Hc & H201 & Hdb
         & Hasks & Hrec)]]].
  - left. destruct Hst as [H | [H | H]]; rewrite H; simpl; tauto.
  - left. destruct Hst as [H | H]; rewrite H; simpl; tauto.
  - destruct out as [r|e].
    + destruct (status r =? 201) eqn:E.
      * destruct Hout as (e & -> & _). left. unfold failure. simpl. tauto.
      * destruct Hout as [Hs | Hs]; [|left; rewrite Hs; simpl; tauto].
        right. exists req, r, (trace w ++ preamble l0 uploads), suffix.
        split; [|split; [now apply Z.eqb_neq | exact Hs]].
        unfold preamble. simpl. rewrite <- !app_assoc. reflexivity.
    + subst resp. left. unfold failure. simpl. tauto.
  - left. destruct Hrec as (pd & _ & _ & Hresp).
    destruct o as [[|]|e]; [destruct Hresp as [-> _] | destruct Hresp as [-> _]
                           | subst resp];
      unfold failure, json_error, published_response; simpl; tauto.
Qed.

End Outcomes.

(* ------------------------------------------------------------------ *)
(** ** Further properties of POST: where requests go *)
(* ------------------------------------------------------------------ *)

Section Destinations.

Context {RT : Runtime} {S : Type} {D : Db S}.
Variable env : Env.







End Destinations.

(* ------------------------------------------------------------------ *)
(** ** Further properties of the publish path and of DELETE *)
(* ------------------------------------------------------------------ *)

Section PublishPath.

Context {RT : Runtime} {S : Type} {D : Db S}.
Variable env : Env.

(** X14. An article stored as JSON text and the same article stored already
    decoded give the same run, as long as the decoded value is truthy and
    not itself a string (lines 131-135). *)
Theorem stored_text_or_object tweet_pk language status tweet text v (w : World S) :
  match language with
  | english => article_english tweet
  | french => article_french tweet
  end = JStr text ->
  is_empty text = false ->
  JSON_parse text = Ok v ->
  truthy v = true ->
  is_string v = false ->
  publish env tweet_pk language status tweet w
  = publish env tweet_pk language status (with_article language v tweet) w.
Proof.
  intros Hart Hne Hparse Tv Hns.
  destruct language; unfold publish;
    cbn [with_article article_english article_french];
    rewrite Hart; simpl; rewrite Hne, Tv; simpl; rewrite Hparse;
    destruct v; try discriminate Hns; reflexivity.
Qed.

Section ReachesPost.

Variables (tweet_pk : Z) (language : Language) (status : JsVal) (tweet : Tweet)
          (w : World S) (articleData title article content : JsVal)
          (html wpUrl wpUsername wpPassword : string).

Let articleContent : JsVal :=
  match language with
  | english => article_english tweet
  | french => article_french tweet
  end.

Hypothesis Hcontent : truthy articleContent = true.
Hypothesis Hdecode :
  match articleContent with
  | JStr text => JSON_parse text
  | _ => Ok articleContent
  end = Ok articleData.
Hypothesis Htitle : get_prop articleData "title" = Ok title.
Hypothesis Ttitle : truthy title = true.
Hypothesis Harticle : get_prop articleData "article" = Ok article.
Hypothesis Hbody : get_prop articleData "content" = Ok content.
Hypothesis Tbody : truthy article || truthy content = true.
Hypothesis Hmarked : marked (js_or (js_or article content) (JStr EmptyString)) = Ok html.
Hypothesis Hurl :
  db_settings_get (settings_key language "Url") (store w) = Ok (Some wpUrl).
Hypothesis Huser :
  db_settings_get (settings_key language "Username") (store w) = Ok (Some wpUsername).
Hypothesis Hpass :
  db_settings_get (settings_key language "Password") (store w) = Ok (Some wpPassword).
Hypothesis Nurl : is_empty wpUrl = false.
Hypothesis Nuser : is_empty wpUsername = false.
Hypothesis Npass : is_empty wpPassword = false.

Let settings_read : World S :=
  {| store := store w;
     trace := trace w ++ [EvSettingsGet (settings_key language "Url");
                          EvSettingsGet (settings_key language "Username");
                          EvSettingsGet (settings_key language "Password")] |}.

Let run : list (option UploadedImage) * World S :=
  attempts env (decode_media_urls (media_urls tweet)) wpUrl wpUsername wpPassword
    settings_read.

(** With a complete article and configured credentials the publish path
    gets to the post-creation call, after the uploads. *)
Lemma publish_reaches_post :
  publish env tweet_pk language status tweet w
  = (response <- fetch env PostCreate
                   (post_request wpUrl wpUsername wpPassword
                      (postData title
                         (fullContent html (successes (fst run)) tweet)
                         status (successes (fst run)))) ;;
     after_post tweet_pk language response) (snd run).
Proof.
  unfold publish. fold articleContent. rewrite Hcontent. simpl.
  rewrite Hdecode. unfold_handler. simpl.
  rewrite Htitle, Ttitle. simpl. rewrite Harticle.
  destruct (truthy article) eqn:Ta; simpl;
    [|rewrite Hbody; simpl in Tbody; rewrite Tbody; simpl].
  all: rewrite Hurl; simpl; rewrite Huser; simpl; rewrite Hpass; simpl.
  all: rewrite Nurl, Nuser, Npass; simpl.
  all: rewrite upload_all_attempts; rewrite <- !app_assoc; simpl.
  all: rewrite ?Harticle, ?Hbody, ?Hmarked, ?Htitle; simpl;
    rewrite ?Hmarked; reflexivity.
Qed.

(** X16. When no image was uploaded (no media, or every upload failed), the
    post that is submitted has a title, a content made of the article, an
    empty gallery line and the attribution, and a status, and no
    [featured_media] key; its status is the request's when that is truthy
    and ["publish"] otherwise.  Without media URLs the post-creation call
    is the first fetch of the run. *)
Theorem post_without_images :
  successes (fst run) = [] ->
  publish env tweet_pk language status tweet w
  = (response <- fetch env PostCreate
                   (post_request wpUrl wpUsername wpPassword
                      (JObj [("title", title);
                             ("content",
                              JStr (html ++ nl ++ nl ++ attribution tweet)%string);
                             ("status",
                              if truthy status then status else JStr "publish")])) ;;
     after_post tweet_pk language response) (snd run)
  /\ (decode_media_urls (media_urls tweet) = [] -> snd run = settings_read).
Proof.
  intros Hnone. split.
  - rewrite publish_reaches_post. rewrite Hnone. reflexivity.
  - intros Hno. unfold run. rewrite Hno. reflexivity.
Qed.

End ReachesPost.

End PublishPath.

Section Delete.

Context {S : Type} {D : Db S}.

(** X15. The bulk delete always answers.  When the count cannot be read,
    nothing is deleted: the store is left as it was and [deleteAll] is not
    called.  Otherwise the reported [deletedCount] is what [deleteAll]
    returned, whatever the count read before it. *)
Theorem delete_reports_what_was_deleted (w : World S) :
  (forall e,
     db_getCount (store w) = Throw e ->
     exists msg,
       DELETE w = (Ok (delete_failure e),
                   {| store := store w;
                      trace := trace w ++ [EvGetCount; EvConsole ConsoleError msg] |}))
  /\ (forall countBefore deletedCount s',
        db_getCount (store w) = Ok countBefore ->
        db_deleteAll (store w) = (Ok deletedCount, s') ->
        DELETE w = (Ok (deleted deletedCount),
                    {| store := s'; trace := trace w ++ [EvGetCount; EvDeleteAll] |}))
  /\ (forall countBefore e s',
        db_getCount (store w) = Ok countBefore ->
        db_deleteAll (store w) = (Throw e, s') ->
        exists w', DELETE w = (Ok (delete_failure e), w') /\ store w' = s').
Proof.
  split; [|split].
  - intros e Hc. eexists. unfold DELETE. unfold_handler. simpl. rewrite Hc. simpl.
    rewrite <- app_assoc. reflexivity.
  - intros c d s' Hc Hd. unfold DELETE. unfold_handler. simpl. rewrite Hc. simpl.
    rewrite Hd. simpl. rewrite <- app_assoc. reflexivity.
  - intros c e s' Hc Hd. unfold DELETE. unfold_handler. simpl. rewrite Hc. simpl.
    rewrite Hd. simpl. eexists. split; reflexivity.
Qed.

End Delete.

(* ------------------------------------------------------------------ *)
(** ** Concrete runs for the further properties *)
(* ------------------------------------------------------------------ *)

Section MoreExamples.

Import ListDb Stub Demo Demo2.


(** An image URL whose path has no extension: the made-up name is clean. *)
Lemma uploaded_name_has_no_slash_witness :
  no_slash "tweet_image_1700000000000.png" = true.
Proof.
  destruct (uploaded_name_has_no_slash (env1 (-1) created)
              (JStr "https://pbs.example/b") "https://blog.example/" "admin" "secret"
              (init store1)) as (r & evs & Hrun & Hall).
  assert (Hevs : evs = trace (snd (uploadImageToWordPress (env1 (-1) created)
                                     (JStr "https://pbs.example/b")
                                     "https://blog.example/" "admin" "secret"
                                     (init store1))))
    by (rewrite Hrun; reflexivity).
  eapply Hall; [rewrite Hevs; vm_compute; right; left; reflexivity|].
  reflexivity.
Defined.


Lemma trailing_slash_is_dropped_witness :
  media_endpoint "https://blog.example/" = media_endpoint "https://blog.example".
Proof.
  destruct (trailing_slash_is_dropped (RT := runtime) (S := ListStore)
              "https://blog.example") as [_ H].
  destruct (H eq_refl) as (_ & Hm & _). exact Hm.
Defined.

Lemma invalid_language_is_400_witness :
  res_status_of (POST (env1 (-1) created) (body "klingon" (JBool true)) "1"
                   (init store1)) = Some 400.
Proof.
  rewrite (invalid_language_is_400 (env1 (-1) created) (body "klingon" (JBool true))
             "1" 1 (JObj [("language", JStr "klingon"); ("published", JBool true)])
             (JStr "klingon") (init store1) eq_refl eq_refl eq_refl eq_refl).
  reflexivity.
Defined.

Lemma missing_article_is_400_witness :
  res_status_of (POST (env1 (-1) created) (body "french" (JBool true)) "1"
                   (init store1)) = Some 400.
Proof.
  rewrite (missing_article_is_400 (RT := runtime) (env1 (-1) created) (body "french" (JBool true))
             "1" 1 (JObj [("language", JStr "french"); ("published", JBool true)])
             (JStr "french") (init store1) ltac:(vm_compute; reflexivity) ltac:(vm_compute; reflexivity) ltac:(vm_compute; reflexivity)
             french (JBool true) JUndefined (rows store1) tweet1
             ltac:(vm_compute; reflexivity) ltac:(vm_compute; reflexivity) ltac:(vm_compute; reflexivity) ltac:(vm_compute; reflexivity) ltac:(vm_compute; reflexivity) ltac:(vm_compute; reflexivity) ltac:(vm_compute; reflexivity)).
  reflexivity.
Defined.

Lemma incomplete_article_is_400_witness :
  res_status_of (POST (env1 (-1) created) (body "english" (JBool true)) "1"
                   (init untitled)) = Some 400.
Proof.
  destruct (incomplete_article_is_400 (RT := runtime) (env1 (-1) created)
              (body "english" (JBool true))
              "1" 1 (JObj [("language", JStr "english"); ("published", JBool true)])
              (JStr "english") (init untitled) ltac:(vm_compute; reflexivity) ltac:(vm_compute; reflexivity) ltac:(vm_compute; reflexivity)
              english (JBool true) JUndefined (rows untitled)
              (with_article english (JObj [("title", JStr "Only a title")]) tweet1)
              ltac:(vm_compute; reflexivity) ltac:(vm_compute; reflexivity) ltac:(vm_compute; reflexivity) ltac:(vm_compute; reflexivity) ltac:(vm_compute; reflexivity) ltac:(vm_compute; reflexivity)
              (JObj [("title", JStr "Only a title")]) ltac:(vm_compute; reflexivity) ltac:(vm_compute; reflexivity)) as [H _].
  rewrite (H (JStr "Only a title") eq_refl (or_intror (conj eq_refl eq_refl))).
  reflexivity.
Defined.

Lemma missing_credentials_is_500_witness :
  res_status_of (POST (env1 (-1) created) (body "english" (JBool true)) "1"
                   (init unconfigured)) = Some 500.
Proof.
  rewrite (missing_credentials_is_500 (RT := runtime) (env1 (-1) created)
             (body "english" (JBool true))
             "1" 1 (JObj [("language", JStr "english"); ("published", JBool true)])
             (JStr "english") (init unconfigured) ltac:(vm_compute; reflexivity) ltac:(vm_compute; reflexivity) ltac:(vm_compute; reflexivity)
             english (JBool true) JUndefined (rows unconfigured) tweet1
             ltac:(vm_compute; reflexivity) ltac:(vm_compute; reflexivity) ltac:(vm_compute; reflexivity) ltac:(vm_compute; reflexivity) ltac:(vm_compute; reflexivity) ltac:(vm_compute; reflexivity)
             article_doc (JStr "Hello") None None None
             ltac:(vm_compute; reflexivity) ltac:(vm_compute; reflexivity) ltac:(vm_compute; reflexivity) ltac:(vm_compute; reflexivity) ltac:(vm_compute; reflexivity)
             ltac:(vm_compute; reflexivity) ltac:(vm_compute; reflexivity) ltac:(vm_compute; reflexivity) ltac:(vm_compute; reflexivity)).
  reflexivity.
Defined.

(** A publish run that succeeds: the answer carries the link of the post. *)
Lemma created_post_is_recorded_witness :
  exists resp,
    fst (POST (env1 1 created) (body "english" (JBool true)) "1" (init store1)) = Ok resp
    /\ get_prop (res_body resp) "link" = Ok (JStr "https://blog.example/?p=7").
Proof.
  destruct (created_post_is_recorded (env1 1 created) (body "english" (JBool true))
              "1" store1) as (resp & w' & Hrun & Hall).
  exists resp. rewrite Hrun. split; [reflexivity|].
  assert (Hw : w' = snd (POST (env1 1 created) (body "english" (JBool true)) "1"
                           (init store1))) by (rewrite Hrun; reflexivity).
  assert (Hin : exists req, In (EvFetch PostCreate req (Ok created)) (trace w'))
    by (rewrite Hw; eexists; vm_compute; do 13 right; left; reflexivity).
  destruct Hin as [req Hin].
  destruct (Hall req created
              (JObj [("id", JNum 7); ("link", JStr "https://blog.example/?p=7")])
              (JStr "https://blog.example/?p=7") Hin eq_refl eq_refl eq_refl)
    as (n & language & o & (Hn & _) & _ & Hdb & Hok & _).
  assert (n = 1) by (vm_compute in Hn; congruence). subst n.
  apply Hok. destruct language; vm_compute in Hdb; congruence.
Defined.

(** A post created with an unusable answer: 500, and nothing recorded. *)
Lemma created_post_can_be_lost_witness :
  exists resp w',
    POST (env1 (-1) (json_response 201 JNull)) (body "english" (JBool true)) "2"
      (init store1) = (Ok resp, w')
    /\ res_status resp = 500 /\ store w' = store1.
Proof.
  destruct (created_post_can_be_lost (env1 (-1) (json_response 201 JNull))
              (body "english" (JBool true)) "2" store1)
    as (resp & w' & Hrun & Hall).
  exists resp, w'. split; [exact Hrun|].
  assert (Hw : w' = snd (POST (env1 (-1) (json_response 201 JNull))
                           (body "english" (JBool true)) "2" (init store1)))
    by (rewrite Hrun; reflexivity).
  assert (Hin : exists req,
                   In (EvFetch PostCreate req (Ok (json_response 201 JNull))) (trace w'))
    by (rewrite Hw; eexists; vm_compute; do 7 right; left; reflexivity).
  destruct Hin as [req Hin].
  destruct (Hall req (Ok (json_response 201 JNull)) Hin) as [_ Hlost].
  destruct (Hlost _ eq_refl eq_refl) as (H500 & Hs & _); [|tauto].
  intros pd Hpd. inversion Hpd; subst pd. eexists. reflexivity.
Defined.

Lemma failed_post_call_is_500_witness :
  fst (POST offline (body "english" (JBool true)) "1" (init plain_store))
  = Ok (failure (Error "fetch failed")).
Proof.
  destruct (failed_post_call_is_500 offline (body "english" (JBool true)) "1"
              plain_store) as (resp & w' & Hrun & Hall).
  rewrite Hrun. simpl fst. f_equal.
  assert (Hw : w' = snd (POST offline (body "english" (JBool true)) "1"
                           (init plain_store))) by (rewrite Hrun; reflexivity).
  eapply Hall. rewrite Hw. vm_compute. do 4 right. left. reflexivity.
Defined.


Lemma stored_text_or_object_witness :
  publish (env1 (-1) created) 1 english JUndefined tweet1 (init store1)
  = publish (env1 (-1) created) 1 english JUndefined
      (with_article english article_doc tweet1) (init store1).
Proof.
  apply (stored_text_or_object (RT := runtime) (env1 (-1) created) 1 english
           JUndefined tweet1 (stringify article_doc) article_doc (init store1));
    vm_compute; reflexivity.
Defined.

Lemma delete_reports_what_was_deleted_witness :
  res_status_of (@DELETE unit Broken_Db (init tt)) = Some 500.
Proof.
  destruct (delete_reports_what_was_deleted (D := Broken_Db) (init tt)) as [H _].
  destruct (H down eq_refl) as [msg Hd]. rewrite Hd. reflexivity.
Defined.

Lemma post_without_images_witness :
  publish (env1 (-1) created) 1 english JUndefined (with_media_urls JNull tweet1)
    (init plain_store)
  = (response <- fetch (env1 (-1) created) PostCreate
                   (post_request "https://blog.example/" "admin" "secret"
                      (JObj [("title", JStr "Hello");
                             ("content",
                              JStr (("<p>Some *text*</p>" ++ nl) ++ nl ++ nl
                                    ++ attribution tweet1)%string);
                             ("status", JStr "publish")])) ;;
     after_post 1 english response)%handler
      {| store := plain_store;
         trace := [EvSettingsGet "wordpressEnglishUrl";
                   EvSettingsGet "wordpressEnglishUsername";
                   EvSettingsGet "wordpressEnglishPassword"] |}.
Proof.
  exact (proj1 (post_without_images (RT := runtime) (env1 (-1) created) 1 english
                  JUndefined (with_media_urls JNull tweet1) (init plain_store)
                  article_doc (JStr "Hello") (JStr "Some *text*") JUndefined
                  ("<p>Some *text*</p>" ++ nl)%string
                  "https://blog.example/" "admin" "secret"
                  eq_refl ltac:(vm_compute; reflexivity) eq_refl eq_refl eq_refl
                  eq_refl eq_refl eq_refl eq_refl eq_refl eq_refl eq_refl eq_refl
                  eq_refl eq_refl)).
Defined.

End MoreExamples.
